(** * Stealth crawler: a shallow embedding of [crawler_service.py]

    The development follows [UniversalCrawlerService] of
    [backend/app/services/crawler_service.py]:

    - Python [str] values are [string]s: a character of a [string] is a
      character of the [str], with a code point below 256, not a byte of its
      encoding (texts with other characters are outside the model); [len],
      slicing [s[:n]], [str.lower], the substring test [a in b] and the size
      of the UTF-8 encoding are written out below;
    - the asynchronous methods are computations in a small trace-and-exception
      monad: every call into Playwright, the stream producer or the refinery
      leaves an event in the trace and either returns or raises, as told by a
      [Behaviour] record that is the environment of one task;
    - [try/except/finally] are combinators of that monad.

    It also covers the code around the service: the browser engine behind
    [create_stealth_context], the TAIKAI scraper of
    [scrapers/hackathons/taikai_scraper.py], which calls [fetch_content] and
    reads the JSON blob of the page (JSON values are [Py.Value]s, [json.loads]
    and [str] are parameters), and the search criteria of [chat_service.py]. *)

From Stdlib Require Import String Ascii List Bool Arith ZArith QArith Lia.
Import ListNotations.
Local Close Scope Q_scope.
Local Close Scope Z_scope.
Local Open Scope nat_scope.
Local Open Scope string_scope.
Local Open Scope list_scope.

(** ** Python strings *)

Module PyStr.

(** [c.lower()] on one character with a code point below 256: the letters
    [A-Z] and the capital letters [U+00C0]-[U+00DE] (the sign [U+00D7] apart)
    are mapped to the letter 32 places on, the other characters are left as
    they are. *)
Definition lower_ascii (c : ascii) : ascii :=
  let n := nat_of_ascii c in
  if (65 <=? n)%nat && (n <=? 90)%nat then ascii_of_nat (n + 32)
  else if (192 <=? n)%nat && (n <=? 222)%nat && negb (n =? 215)%nat
  then ascii_of_nat (n + 32)
  else c.

(** [s.lower()] *)
Fixpoint lower (s : string) : string :=
  match s with
  | EmptyString => EmptyString
  | String c s' => String (lower_ascii c) (lower s')
  end.

(** [needle in hay] *)
Fixpoint str_in (needle hay : string) : bool :=
  String.prefix needle hay
  || match hay with
     | EmptyString => false
     | String _ hay' => str_in needle hay'
     end.

(** [s[:n]] *)
Fixpoint take (n : nat) (s : string) : string :=
  match n, s with
  | O, _ => EmptyString
  | _, EmptyString => EmptyString
  | S n', String c s' => String c (take n' s')
  end.

(** [x in xs] for a list of strings *)
Definition mem (x : string) (xs : list string) : bool :=
  existsb (String.eqb x) xs.

(** [any(d in url for d in ds)] *)
Definition any_in (ds : list string) (url : string) : bool :=
  existsb (fun d => str_in d url) ds.

(** [len(s.encode('utf-8'))]: a character below 128 takes one byte, the
    other characters below 256 take two. *)
Fixpoint utf8_length (s : string) : Z :=
  match s with
  | EmptyString => 0%Z
  | String c s' =>
      ((if (nat_of_ascii c <? 128)%nat then 1 else 2) + utf8_length s')%Z
  end.

(** Every character of [s] is below 128. *)
Fixpoint is_ascii (s : string) : bool :=
  match s with
  | EmptyString => true
  | String c s' => (nat_of_ascii c <? 128)%nat && is_ascii s'
  end.

End PyStr.

(** ** Request policy filters *)

(** A [route] as the handlers see it: [route.request.url] and
    [route.request.resource_type]. *)
Record Request := mkRequest {
  req_url : string;
  resource_type : string
}.

(** What a handler does with the route: [route.abort()] or
    [route.continue_()]. *)
Inductive RouteAction := Abort | Continue.

Definition RouteAction_eqb (a b : RouteAction) : bool :=
  match a, b with
  | Abort, Abort | Continue, Continue => true
  | _, _ => false
  end.

Definition BLOCKED_DOMAINS : list string :=
  [ "google-analytics.com"; "googletagmanager.com"; "facebook.net";
    "clarity.ms"; "hotjar.com"; "linkedin.com"; "doubleclick.net";
    "quantserve.com"; "scorecardresearch.com"; "intercom.io" ].

Definition SAFE_DOMAINS : list string :=
  [ "api."; "graphql"; "cdn-cgi"; "dorahacks.io"; "hackquest.io";
    "superteam.fun"; "taikai.network" ].

(** The closure [_handle_route] of [_crawl_single_target]. *)
Definition _handle_route (route : Request) : RouteAction :=
  let url := PyStr.lower (req_url route) in
  let resource_type := resource_type route in
  (* 1. Block heavy resource types *)
  if PyStr.mem resource_type ["image"; "media"; "font"] then Abort
  else
    (* 2. Block tracking/social scripts (exclude mission-critical APIs) *)
    if PyStr.any_in BLOCKED_DOMAINS url then
      if negb (PyStr.any_in SAFE_DOMAINS url) then Abort
      else Continue
    else Continue.

(** The lambda that [fetch_content] registers with [page.route]. *)
Definition fetch_content_route (route : Request) : RouteAction :=
  if PyStr.mem (resource_type route) ["image"; "media"; "font"; "stylesheet"]
  then Abort
  else Continue.

(** The two handlers that the service registers with [page.route], by name,
    and what each does with a request. *)
Inductive Handler := BatchHandler | FetchHandler.

Definition handle (h : Handler) (route : Request) : RouteAction :=
  match h with
  | BatchHandler => _handle_route route
  | FetchHandler => fetch_content_route route
  end.

(** ** Effects: traces and exceptions *)

(** The dictionary built by [_process_success], one field per key. *)
Record Payload := mkPayload {
  payload_url : string;
  payload_title : string;
  payload_html : string;
  payload_crawled_at : Q;
  payload_source : string;
  payload_intent : string;
  payload_agent_type : string
}.

Inductive LogLevel := DEBUG | INFO | WARNING | ERROR.

(** What a task does to the outside world, in the order it does it. An event
    for a call that may raise records the call, not its success, except
    [ContextCreated] and [PageOpened], which record that the object exists,
    and [ContextClosed] and [PageClosed], which record that the close call
    returned. *)
Inductive Event :=
| ContextCreated
| ContextClosed
| PageOpened
| PageClosed
| RouteRegistered (pattern : string) (handler : Handler)
| HeadersSet
| Goto (url wait_until : string) (timeout : Z)
| MouseMove
| Sleep
| Evaluate (script : string)
| WaitForLoadState (state : string) (timeout : Z)
| ReadContent
| ReadTitle
| Publish (topic key : string) (value : Payload)
| ProcessRawEvent (key : string) (value : Payload)
| Log (level : LogLevel) (msg : string) (url : option string).

Definition Trace := list Event.

(** A Python exception, named after the call that raised it. *)
Inductive Exn :=
| ContextError
| NewPageError
| RouteError
| HeadersError
| GotoError (wait_until : string) (timeout : Z)
| MouseError
| EvaluateError
| LoadStateError
| ContentError
| TitleError
| PublishError
| RefineryError
| InitScriptError
| PageCloseError
| ContextCloseError.

Inductive Res (A : Type) :=
| Ret (a : A)
| Raise (e : Exn).
Arguments Ret {A} a.
Arguments Raise {A} e.

(** A computation: how it ends and the events it left. *)
Definition M (A : Type) : Type := Res A * Trace.

Definition ret {A} (a : A) : M A := (Ret a, []).
Definition raise {A} (e : Exn) : M A := (Raise e, []).
Definition emit (ev : Event) : M unit := (Ret tt, [ev]).

Definition bind {A B} (m : M A) (k : A -> M B) : M B :=
  match m with
  | (Ret a, t) => let (r, t') := k a in (r, t ++ t')
  | (Raise e, t) => (Raise e, t)
  end.

Declare Scope crawl_scope.
Delimit Scope crawl_scope with crawl.
Notation "x <- m ;; k" := (bind m (fun x => k))
  (at level 61, m at next level, right associativity) : crawl_scope.
Notation "m ;; k" := (bind m (fun _ => k))
  (at level 61, right associativity) : crawl_scope.
Local Open Scope crawl_scope.

(** [try: m except Exception as e: h e] *)
Definition try_except {A} (m : M A) (h : Exn -> M A) : M A :=
  match m with
  | (Ret a, t) => (Ret a, t)
  | (Raise e, t) => let (r, t') := h e in (r, t ++ t')
  end.

(** [try: m finally: f]; an exception of [f] replaces the result of [m]. *)
Definition try_finally {A} (m : M A) (f : M unit) : M A :=
  let (r, t) := m in
  match f with
  | (Ret _, t') => (r, t ++ t')
  | (Raise e, t') => (Raise e, t ++ t')
  end.

(** [for i in range(n): body i] *)
Fixpoint for_range_from (i n : nat) (body : nat -> M unit) : M unit :=
  match n with
  | O => ret tt
  | S n' => body i ;; for_range_from (S i) n' body
  end.

Definition for_range (n : nat) (body : nat -> M unit) : M unit :=
  for_range_from 0 n body.

(** [for x in xs: body x] *)
Fixpoint for_each {A} (xs : list A) (body : A -> M unit) : M unit :=
  match xs with
  | [] => ret tt
  | x :: xs' => body x ;; for_each xs' body
  end.

(** A call that is recorded and then returns or raises. *)
Definition call (ev : Event) (ok : bool) (e : Exn) : M unit :=
  emit ev ;; if ok then ret tt else raise e.

(** [await asyncio.gather] over the tasks of a batch, called without
    [return_exceptions]: every task is started and is not cancelled when
    another one raises; the caller gets the list of results, or the exception
    of a task that raised (here the first in the order of the list). The
    events of the tasks are listed task after task: the tasks share no state,
    so the interleaving changes neither the events of a task nor its
    result. When a task raises, the caller gets the exception without
    waiting for the other tasks, which go on as long as the event loop runs:
    their events are listed all the same. *)
Fixpoint gather_results {A} (rs : list (Res A)) : Res (list A) :=
  match rs with
  | [] => Ret []
  | Raise e :: _ => Raise e
  | Ret a :: rs' =>
      match gather_results rs' with
      | Ret l => Ret (a :: l)
      | Raise e => Raise e
      end
  end.

Definition gather {A} (tasks : list (M A)) : M (list A) :=
  (gather_results (map fst tasks), concat (map snd tasks)).

(** ** The environment of one task *)

(** How the browser, the pages, the clock, the stream producer and the
    refinery answer one task: [true] (or [Some]) when the call returns,
    [false] (or [None]) when it raises. For the definitions that take a
    [Behaviour] alone, [create_stealth_context] is one call that returns a
    new context or raises and leaves none, and the cleanup calls
    [context.close()] and [page.close()] return; the primed definitions,
    which also take a [Lifecycle], go without this. *)
Record Behaviour := mkBehaviour {
  context_ok : bool;                  (* create_stealth_context() *)
  new_page_ok : bool;                 (* context.new_page() *)
  route_ok : bool;                    (* page.route(...) *)
  headers_ok : bool;                  (* page.set_extra_http_headers(...) *)
  goto_ok : string -> Z -> bool;      (* page.goto(url, wait_until, timeout) *)
  mouse_ok : bool;                    (* page.mouse.move(...) *)
  evaluate_ok : nat -> bool;          (* page.evaluate(...), per scroll *)
  networkidle_ok : bool;              (* page.wait_for_load_state(...) *)
  page_content : option string;       (* page.content() *)
  page_title : option string;         (* page.title() *)
  clock : Q;                          (* time.time() *)
  publish_result : option bool;       (* publish_to_stream(...) *)
  refinery_ok : bool                  (* refinery_service.process_raw_event(...) *)
}.

(** How the calls that [Behaviour] takes as returning answer one task: the
    second step of [create_stealth_context] and the two clean-up calls. The
    definitions that take a [Lifecycle] follow the source in full. *)
Record Lifecycle := mkLifecycle {
  init_script_ok : bool;              (* context.add_init_script(...) *)
  page_close_ok : bool;               (* page.close() *)
  context_close_ok : bool             (* context.close() *)
}.

(** The terminal result of one target, after the branch of
    [_crawl_single_target] that ends it. *)
Inductive SkipReason := blacklisted | not_found | too_thin.

Inductive Outcome :=
| Success
| Skipped (reason : SkipReason)
| Failed (error : Exn).

(** ** Python lists *)

(** [xs[a:b]] for [0 <= a <= b] *)
Definition slice {A} (xs : list A) (a b : nat) : list A :=
  firstn (b - a) (skipn a xs).

(** [range(0, n, step)] *)
Definition range_step (n step : nat) : list nat :=
  map (fun k => k * step) (seq 0 ((n + step - 1) / step)).

(** ** Vocabulary of the properties *)

(** [d] occurs in [s]. *)
Definition Substring (d s : string) : Prop :=
  exists pre post, s = (pre ++ d ++ post)%string.

(** A request URL matches a list of domain substrings when one of them occurs
    in the URL once lower-cased, which is how [_handle_route] looks at it. *)
Definition url_matches (ds : list string) (url : string) : Prop :=
  exists d, In d ds /\ Substring d (PyStr.lower url).

Definition heavy_types : list string := ["image"; "media"; "font"].

Definition is_context_created (ev : Event) : bool :=
  match ev with ContextCreated => true | _ => false end.

Definition is_context_closed (ev : Event) : bool :=
  match ev with ContextClosed => true | _ => false end.

Definition is_context_event (ev : Event) : bool :=
  is_context_created ev || is_context_closed ev.

Definition is_page_opened (ev : Event) : bool :=
  match ev with PageOpened => true | _ => false end.

Definition is_navigation (ev : Event) : bool :=
  match ev with Goto _ _ _ => true | _ => false end.

Definition is_publish (ev : Event) : bool :=
  match ev with Publish _ _ _ => true | _ => false end.

Definition is_fallback (ev : Event) : bool :=
  match ev with ProcessRawEvent _ _ => true | _ => false end.

Definition is_delivery (ev : Event) : bool :=
  is_publish ev || is_fallback ev.

(** The payload an event hands over, if it hands one over. *)
Definition event_payload (ev : Event) : option Payload :=
  match ev with
  | Publish _ _ v => Some v
  | ProcessRawEvent _ v => Some v
  | _ => None
  end.

(** The payloads that a trace hands over, in order. *)
Definition payloads_of (t : Trace) : list Payload :=
  flat_map (fun ev => match event_payload ev with
                      | Some v => [v]
                      | None => []
                      end) t.

Definition count_events (p : Event -> bool) (t : Trace) : nat :=
  length (filter p t).

Definition raises {A} (m : M A) : bool :=
  match fst m with Raise _ => true | Ret _ => false end.

(** Every event of a computation satisfies [P]. *)
Definition all_events {A} (P : Event -> Prop) (m : M A) : Prop :=
  Forall P (snd m).

(** A log line with the message [msg]. *)
Definition logs (msg : string) (ev : Event) : bool :=
  match ev with
  | Log _ m _ => String.eqb msg m
  | _ => false
  end.

(** The two delivery paths, as a trace shows them: the stream path is taken
    when the publish call reported success (the task logs the transmission),
    the fallback path when the refinery entry point is called. *)
Definition stream_path_taken (t : Trace) : bool :=
  existsb (logs "Drone transmitted payload") t.

Definition fallback_path_taken (t : Trace) : bool :=
  existsb is_fallback t.

(** [Goto] events for one URL. *)
Definition visits (url : string) (ev : Event) : bool :=
  match ev with
  | Goto u _ _ => String.eqb url u
  | _ => false
  end.

(** ** UniversalCrawlerService *)

(** The fields of [self] that the methods below read. The engine handles
    [browser] and [playwright] stay behind [create_stealth_context]. *)
Record UniversalCrawlerService := mkService {
  kafka_initialized : bool
}.

(** ** Sample environments *)

Module Scenario.

Fixpoint replicate (n : nat) (c : ascii) : string :=
  match n with
  | O => EmptyString
  | S n' => String c (replicate n' c)
  end.

(** A page of [n] characters. *)
Definition page_html (n : Z) : string := replicate (Z.to_nat n) "x".

(** Every call returns; the page is large enough and has a plain title; the
    producer reports success. *)
Definition healthy : Behaviour :=
  {| context_ok := true;
     new_page_ok := true;
     route_ok := true;
     headers_ok := true;
     goto_ok := fun _ _ => true;
     mouse_ok := true;
     evaluate_ok := fun _ => true;
     networkidle_ok := true;
     page_content := Some (page_html 6000);
     page_title := Some "Open hackathons";
     clock := (1700000000 # 1)%Q;
     publish_result := Some true;
     refinery_ok := true |}.

Definition with_context (ok : bool) (b : Behaviour) : Behaviour :=
  mkBehaviour ok (new_page_ok b) (route_ok b) (headers_ok b) (goto_ok b)
    (mouse_ok b) (evaluate_ok b) (networkidle_ok b) (page_content b)
    (page_title b) (clock b) (publish_result b) (refinery_ok b).

Definition with_goto (g : string -> Z -> bool) (b : Behaviour) : Behaviour :=
  mkBehaviour (context_ok b) (new_page_ok b) (route_ok b) (headers_ok b) g
    (mouse_ok b) (evaluate_ok b) (networkidle_ok b) (page_content b)
    (page_title b) (clock b) (publish_result b) (refinery_ok b).

Definition with_page (content title : string) (b : Behaviour) : Behaviour :=
  mkBehaviour (context_ok b) (new_page_ok b) (route_ok b) (headers_ok b)
    (goto_ok b) (mouse_ok b) (evaluate_ok b) (networkidle_ok b) (Some content)
    (Some title) (clock b) (publish_result b) (refinery_ok b).

Definition with_publish (r : option bool) (b : Behaviour) : Behaviour :=
  mkBehaviour (context_ok b) (new_page_ok b) (route_ok b) (headers_ok b)
    (goto_ok b) (mouse_ok b) (evaluate_ok b) (networkidle_ok b)
    (page_content b) (page_title b) (clock b) r (refinery_ok b).

(** [create_stealth_context] raises. *)
Definition no_context : Behaviour := with_context false healthy.

(** Every [page.goto] raises. *)
Definition unreachable : Behaviour := with_goto (fun _ _ => false) healthy.



Definition thin_page : Behaviour :=
  with_page (page_html 3000) "Open hackathons" healthy.

Definition huge_page : Behaviour :=
  with_page (page_html 200001) "Open hackathons" healthy.

(** [publish_to_stream] raises. *)
Definition publish_raises : Behaviour := with_publish None healthy.

(** [publish_to_stream] returns [False]. *)
Definition publish_fails : Behaviour := with_publish (Some false) healthy.

Definition online : UniversalCrawlerService := mkService true.
Definition offline : UniversalCrawlerService := mkService false.

Definition topic : string := "raw-html".

(** A stand-in for [urlparse(url).netloc]. *)
Definition netloc (url : string) : string := url.

Definition six_targets : list string :=
  [ "https://a.example.org/"; "https://b.example.org/";
    "https://c.example.org/"; "https://d.example.org/";
    "https://e.example.org/"; "https://f.example.org/" ].

(** The first target gets no context; the others are healthy. *)
Definition first_context_fails (i : nat) : Behaviour :=
  if Nat.eqb i 0 then no_context else healthy.

Definition live_target : string := "https://devpost.com/hackathons".

(** The letter e with an acute accent, [U+00E9]: two bytes in UTF-8. *)
Definition e_acute : ascii := ascii_of_nat 233.

(** A page of 200001 accented letters. *)
Definition accented_page : Behaviour :=
  with_page (replicate (Z.to_nat 200001) e_acute) "Open hackathons" healthy.

(** [page.close()] raises. *)
Definition page_close_fails : Lifecycle := mkLifecycle true false true.

(** [context.add_init_script] raises. *)
Definition init_script_fails : Lifecycle := mkLifecycle false true true.

End Scenario.

(** ** The browser engine behind [create_stealth_context]

    [_init_browser], [create_stealth_context] and [close], call by call, for
    calls made one after the other: the fields [self.playwright] and
    [self.browser] are the state, each call gets the answers of Playwright
    and the draws of [random.choice]. *)

Module Engine.

(** The identity a context is created with. *)
Record Profile := mkProfile {
  user_agent : string;
  viewport : nat * nat;
  locale : string;
  timezone_id : string
}.

Inductive Ev :=
| PlaywrightStart
| ChromiumLaunch (headless : bool) (args : list string)
| NewContext (profile : Profile)
| AddInitScript
| BrowserClose
| PlaywrightStop.

Inductive Err :=
| StartError
| LaunchError
| NoBrowser          (* AttributeError: [self.browser] is [None] *)
| NewContextError
| InitScriptError
| BrowserCloseError
| StopError.

(** [self.playwright] and [self.browser]: set, or still [None]. *)
Record State := mkState {
  playwright : bool;
  browser : bool
}.

(** [__init__] *)
Definition fresh : State := mkState false false.

Definition started : State := mkState true true.

(** What one call meets: which Playwright calls return, and the three
    random draws. *)
Record Answers := mkAnswers {
  start_ok : bool;
  launch_ok : bool;
  new_context_ok : bool;
  init_script_ok : bool;
  browser_close_ok : bool;
  stop_ok : bool;
  draw_agent : nat;
  draw_viewport : nat;
  draw_timezone : nat
}.

(** How a call ends, what it did, and the fields afterwards. *)
Record Run (A : Type) := mkRun {
  result : A + Err;
  events : list Ev;
  after : State
}.
Arguments mkRun {A} result events after.
Arguments result {A} r.
Arguments events {A} r.
Arguments after {A} r.

Definition LAUNCH_ARGS : list string :=
  [ "--no-sandbox"; "--disable-setuid-sandbox";
    "--disable-blink-features=AutomationControlled"; "--disable-infobars";
    "--window-size=1920,1080" ].

Definition _init_browser (a : Answers) (st : State) : Run unit :=
  if negb (playwright st) then
    if start_ok a then
      if launch_ok a then
        mkRun (inl tt) [PlaywrightStart; ChromiumLaunch true LAUNCH_ARGS]
              (mkState true true)
      else
        mkRun (inr LaunchError) [PlaywrightStart; ChromiumLaunch true LAUNCH_ARGS]
              (mkState true (browser st))
    else mkRun (inr StartError) [PlaywrightStart] st
  else mkRun (inl tt) [] st.

Definition user_agents : list string :=
  [ "Mozilla/5.0 (Windows NT 10.0; Win64; x64) AppleWebKit/537.36 (KHTML, like Gecko) Chrome/120.0.0.0 Safari/537.36";
    "Mozilla/5.0 (Macintosh; Intel Mac OS X 10_15_7) AppleWebKit/537.36 (KHTML, like Gecko) Chrome/120.0.0.0 Safari/537.36";
    "Mozilla/5.0 (Windows NT 10.0; Win64; x64; rv:121.0) Gecko/20100101 Firefox/121.0";
    "Mozilla/5.0 (Macintosh; Intel Mac OS X 10_15_7) AppleWebKit/605.1.15 (KHTML, like Gecko) Version/17.2 Safari/605.1.15";
    "Mozilla/5.0 (X11; Linux x86_64) AppleWebKit/537.36 (KHTML, like Gecko) Chrome/120.0.0.0 Safari/537.36" ].

Definition viewports : list (nat * nat) :=
  [ (1920, 1080); (1536, 864); (1440, 900); (1366, 768) ].

Definition timezones : list string :=
  [ "America/New_York"; "America/Los_Angeles"; "Europe/London" ].

(** [random.choice(seq)], the draw being reduced to an index of [seq]. *)
Definition choice {A} (seq : list A) (draw : nat) (default : A) : A :=
  nth (draw mod length seq) seq default.

Definition draw_profile (a : Answers) : Profile :=
  {| user_agent := choice user_agents (draw_agent a) "";
     viewport := choice viewports (draw_viewport a) (0, 0);
     locale := "en-US";
     timezone_id := choice timezones (draw_timezone a) "" |}.

Definition create_stealth_context (a : Answers) (st : State) : Run unit :=
  let init := _init_browser a st in
  match result init with
  | inr e => init
  | inl _ =>
      let st1 := after init in
      if browser st1 then
        if new_context_ok a then
          if init_script_ok a then
            mkRun (inl tt)
                  (events init ++ [NewContext (draw_profile a); AddInitScript])
                  st1
          else
            mkRun (inr InitScriptError)
                  (events init ++ [NewContext (draw_profile a); AddInitScript])
                  st1
        else mkRun (inr NewContextError) (events init) st1
      else mkRun (inr NoBrowser) (events init) st1
  end.

(** [close]: neither field is reset. *)
Definition close (a : Answers) (st : State) : Run unit :=
  if browser st then
    if browser_close_ok a then
      if playwright st then
        mkRun (if stop_ok a then inl tt else inr StopError)
              [BrowserClose; PlaywrightStop] st
      else mkRun (inl tt) [BrowserClose] st
    else mkRun (inr BrowserCloseError) [BrowserClose] st
  else
    if playwright st then
      mkRun (if stop_ok a then inl tt else inr StopError) [PlaywrightStop] st
    else mkRun (inl tt) [] st.

(** Calls of [create_stealth_context] one after the other, each with its
    answers: what each call gave, and all the events. *)
Fixpoint create_many (answers : list Answers) (st : State)
  : list (unit + Err) * list Ev * State :=
  match answers with
  | [] => ([], [], st)
  | a :: rest =>
      let r := create_stealth_context a st in
      let '(results, evs, st') := create_many rest (after r) in
      (result r :: results, events r ++ evs, st')
  end.

Definition is_launch (ev : Ev) : bool :=
  match ev with ChromiumLaunch _ _ => true | _ => false end.

Definition is_start (ev : Ev) : bool :=
  match ev with PlaywrightStart => true | _ => false end.

Definition is_new_context (ev : Ev) : bool :=
  match ev with NewContext _ => true | _ => false end.

End Engine.

(** ** Python values

    What [json.loads] gives, and the operations of Python that
    [taikai_scraper.py] applies to it, with the exception each raises on a
    value of the wrong type. The keys of a dictionary are distinct. *)

Module Py.

#[warnings="-register-all"]
Inductive Value :=
| VNone
| VBool (b : bool)
| VNum (q : Q)
| VStr (s : string)
| VList (l : list Value)
| VDict (d : list (string * Value)).

Inductive Err :=
| AttributeError
| TypeError
| ValueError
| NameError
| Escaped (e : Exn).      (* an exception of the crawler *)

Inductive Result (A : Type) :=
| Ok (a : A)
| Error (e : Err).
Arguments Ok {A} a.
Arguments Error {A} e.

(** A computation that logs: how it ends, and the messages it logged. *)
Definition L (A : Type) : Type := Result A * list string.

Definition ret {A} (a : A) : L A := (Ok a, []).
Definition raise {A} (e : Err) : L A := (Error e, []).
Definition log (msg : string) : L unit := (Ok tt, [msg]).
Definition lift {A} (r : Result A) : L A := (r, []).

Definition bind {A B} (m : L A) (k : A -> L B) : L B :=
  match m with
  | (Ok a, l) => let (r, l') := k a in (r, l ++ l')
  | (Error e, l) => (Error e, l)
  end.

(** [try: m except Exception: h] *)
Definition try_except {A} (m : L A) (h : Err -> L A) : L A :=
  match m with
  | (Ok a, l) => (Ok a, l)
  | (Error e, l) => let (r, l') := h e in (r, l ++ l')
  end.

(** The same, for computations that do not log. *)
Definition rbind {A B} (r : Result A) (k : A -> Result B) : Result B :=
  match r with
  | Ok a => k a
  | Error e => Error e
  end.

Fixpoint lookup (key : string) (d : list (string * Value)) : option Value :=
  match d with
  | [] => None
  | (k, v) :: d' => if String.eqb k key then Some v else lookup key d'
  end.

(** [obj.get(key, default)] *)
Definition get (obj : Value) (key : string) (default : Value) : Result Value :=
  match obj with
  | VDict d =>
      match lookup key d with
      | Some v => Ok v
      | None => Ok default
      end
  | _ => Error AttributeError
  end.

(** [bool(v)] *)
Definition truthy (v : Value) : bool :=
  match v with
  | VNone => false
  | VBool b => b
  | VNum q => negb (Qeq_bool q 0)
  | VStr s => negb (String.eqb s "")
  | VList l => match l with [] => false | _ => true end
  | VDict d => match d with [] => false | _ => true end
  end.

(** [len(v)] *)
Definition len (v : Value) : Result nat :=
  match v with
  | VStr s => Ok (String.length s)
  | VList l => Ok (length l)
  | VDict d => Ok (length d)
  | _ => Error TypeError
  end.

Fixpoint chars (s : string) : list Value :=
  match s with
  | EmptyString => []
  | String c s' => VStr (String c EmptyString) :: chars s'
  end.

(** The values that [for x in v] goes through. *)
Definition iter (v : Value) : Result (list Value) :=
  match v with
  | VList l => Ok l
  | VDict d => Ok (map (fun kv => VStr (fst kv)) d)
  | VStr s => Ok (chars s)
  | _ => Error TypeError
  end.

(** [v.items()] *)
Definition items (v : Value) : Result (list (string * Value)) :=
  match v with
  | VDict d => Ok d
  | _ => Error AttributeError
  end.

Definition is_str (s : string) (v : Value) : bool :=
  match v with
  | VStr s' => String.eqb s s'
  | _ => false
  end.

(** [s in v] for a string [s] *)
Definition contains (s : string) (v : Value) : Result bool :=
  match v with
  | VDict d => Ok (match lookup s d with Some _ => true | None => false end)
  | VList l => Ok (existsb (is_str s) l)
  | VStr t => Ok (PyStr.str_in s t)
  | _ => Error TypeError
  end.

End Py.

(** ** taikai_scraper.py: [fetch_taikai_events] *)

Module Taikai.
Import Py.

Declare Scope py_scope.
Notation "x <- m ;; k" := (bind m (fun x => k))
  (at level 61, m at next level, right associativity) : py_scope.
Notation "m ;; k" := (bind m (fun _ => k))
  (at level 61, right associativity) : py_scope.
Notation "x <-- r ;; k" := (rbind r (fun x => k))
  (at level 61, r at next level, right associativity) : py_scope.
Local Open Scope py_scope.

Definition TAIKAI_URL : string := "https://taikai.network/hackathons".

Definition quote : string := String (ascii_of_nat 34) EmptyString.
Definition newline : ascii := ascii_of_nat 10.

(** The two fixed parts of the pattern
    [<script id="__NEXT_DATA__" type="application/json">(.*?)</script>]. *)
Definition SCRIPT_OPEN : string :=
  ("<script id=" ++ quote ++ "__NEXT_DATA__" ++ quote ++ " type=" ++ quote
   ++ "application/json" ++ quote ++ ">")%string.
Definition SCRIPT_CLOSE : string := "</script>".

Fixpoint drop (n : nat) (s : string) : string :=
  match n, s with
  | O, _ => s
  | S n', String _ s' => drop n' s'
  | S _, EmptyString => EmptyString
  end.

(** [(.*?)</script>] at the start of [s]: the shortest run of characters
    other than a newline that is followed by the closing tag. *)
Fixpoint lazy_group (s : string) : option string :=
  if String.prefix SCRIPT_CLOSE s then Some EmptyString
  else
    match s with
    | EmptyString => None
    | String c s' =>
        if Ascii.eqb c newline then None
        else option_map (String c) (lazy_group s')
    end.

(** [re.search(pattern, html)]: the group of the leftmost match, if any. *)
Fixpoint re_search (html : string) : option string :=
  match
    (if String.prefix SCRIPT_OPEN html
     then lazy_group (drop (String.length SCRIPT_OPEN) html)
     else None)
  with
  | Some group => Some group
  | None =>
      match html with
      | EmptyString => None
      | String _ html' => re_search html'
      end
  end.

Section Scraper.

(** [json.loads]: a value, or [None] when it raises. *)
Variable json_loads : string -> option Value.

(** [str(v)] *)
Variable py_str : Value -> string.

Definition loads (s : string) : Result Value :=
  match json_loads s with
  | Some v => Ok v
  | None => Error ValueError
  end.

(** [data.get('props', {}).get('pageProps', {})] *)
Definition page_props_of (data : Value) : Result Value :=
  props <-- get data "props" (VDict []) ;;
  get props "pageProps" (VDict []).

(** The loop over the queries of the dehydrated state; [challenges] is the
    variable of that name as the iteration finds it. *)
Fixpoint scan_queries (queries : list Value) (challenges : Value)
  : Result Value :=
  match queries with
  | [] => Ok challenges
  | q :: rest =>
      state <-- get q "state" (VDict []) ;;
      query_data <-- get state "data" (VDict []) ;;
      if PyStr.str_in "challenges" (py_str query_data) then
        challenges' <--
          match query_data with
          | VList _ => Ok query_data
          | VDict _ =>
              found <-- get query_data "items" (VList []) ;;
              if truthy found then Ok found
              else get query_data "challenges" (VList [])
          | _ => Ok challenges
          end ;;
        if truthy challenges' then Ok challenges'
        else scan_queries rest challenges'
      else scan_queries rest challenges
  end.

(** The search for the challenges in the page properties, up to the value
    that the first [try] returns. *)
Definition find_challenges (page_props : Value) : Result Value :=
  challenges <-- get page_props "challenges" (VList []) ;;
  challenges <--
    (if negb (truthy challenges) then
       initial_state <-- get page_props "initialState" (VDict []) ;;
       in_state <-- get initial_state "challenges" (VDict []) ;;
       get in_state "list" (VList [])
     else Ok challenges) ;;
  if negb (truthy challenges) then
    dehydrated <-- get page_props "dehydratedState" (VDict []) ;;
    queries <-- get dehydrated "queries" (VList []) ;;
    qs <-- iter queries ;;
    scan_queries qs challenges
  else Ok challenges.

(** The body of the first [try], once [html] is bound: [Some v] when it
    returns [v], [None] when it falls through. *)
Definition first_path (html : option string) : L (option Value) :=
  match html with
  | Some text =>
      if negb (String.eqb text "") then
        match re_search text with
        | Some blob =>
            data <- lift (loads blob) ;;
            page_props <- lift (page_props_of data) ;;
            challenges <- lift (find_challenges page_props) ;;
            _ <- lift (len challenges) ;;
            log "TAIKAI scrape success" ;;
            ret (Some challenges)
        | None => ret None
        end
      else ret None
  | None => ret None
  end.

(** The loop over [apollo_state.items()]. *)
Fixpoint collect_challenges (entries : list (string * Value))
  : Result (list Value) :=
  match entries with
  | [] => Ok []
  | (key, value) :: rest =>
      keep <--
        (if String.prefix "Challenge:" key then
           has_name <-- contains "name" value ;;
           if has_name : bool then
             has_slug <-- contains "slug" value ;;
             if has_slug : bool then
               has_prize <-- contains "prize" value ;;
               if has_prize : bool then Ok true
               else contains "shortDescription" value
             else Ok false
           else Ok false
         else Ok false) ;;
      tail <-- collect_challenges rest ;;
      Ok (if keep : bool then value :: tail else tail)
  end.

(** The body of the second [try]; [html] is unbound when [fetch_content]
    raised. *)
Definition second_path (fetched : Res (option string)) : L (option Value) :=
  match fetched with
  | Raise _ => raise NameError
  | Ret html =>
      match html with
      | Some text =>
          if negb (String.eqb text "") && PyStr.str_in "__NEXT_DATA__" text then
            match re_search text with
            | Some blob =>
                data <- lift (loads blob) ;;
                page_props <- lift (page_props_of data) ;;
                apollo_state <- lift (get page_props "apolloState" (VDict [])) ;;
                entries <- lift (items apollo_state) ;;
                challenges <- lift (collect_challenges entries) ;;
                match challenges with
                | _ :: _ =>
                    log "TAIKAI Apollo scrape success" ;;
                    ret (Some (VList challenges))
                | [] => ret None
                end
            | None => ret None
            end
          else ret None
      | None => ret None
      end
  end.

(** [fetch_taikai_events], given how [crawler_service.fetch_content] ended. *)
Definition fetch_taikai_events_from (fetched : Res (option string)) : L Value :=
  returned <-
    try_except
      (log "Fetching TAIKAI via Sentinel Drone..." ;;
       match fetched with
       | Raise e => raise (Escaped e)
       | Ret html => first_path html
       end)
      (fun _ => log "TAIKAI scrape failed" ;; ret None) ;;
  match returned with
  | Some challenges => ret challenges
  | None =>
      returned <-
        try_except
          (second_path fetched)
          (fun _ => log "TAIKAI Apollo parse failed" ;; ret None) ;;
      match returned with
      | Some challenges => ret challenges
      | None => ret (VList [])
      end
  end.

(** *** [transform_taikai_event] and [scrape_taikai_events] *)

(** How the body of [transform_taikai_event] ends on a dictionary with a
    title: with a [Scholarship], with [None] (the event is expired), or with
    an exception, which goes to its handler. *)
Inductive Transformed (Scholarship : Type) :=
| Built (s : Scholarship)
| Expired
| Crashed.
Arguments Built {Scholarship} s.
Arguments Expired {Scholarship}.
Arguments Crashed {Scholarship}.

Section Pipeline.

(** [app.models.Scholarship]; an instance of it is true in a test. *)
Variable Scholarship : Type.

(** The part of [transform_taikai_event] after the test of the title. *)
Variable build : list (string * Value) -> Transformed Scholarship.

(** The handler calls [logger.warning("TAIKAI transform failed", error=...,
    event=event.get('name', 'Unknown'))] on the [structlog] logger of the
    module. Its arguments are evaluated first: [event.get] raises as it did
    in the body when the event is no dictionary. The call itself then raises
    a [TypeError]: the message is the positional argument [event] of the
    logging method, which so gets two values. In both cases the exception
    leaves the function, and nothing is logged. *)
Definition transform_taikai_event (event : Value) : L (option Scholarship) :=
  try_except
    (name <- lift (get event "name" (VStr "")) ;;
     title <- (if truthy name then ret name
               else lift (get event "title" (VStr ""))) ;;
     _ <- lift (get event "slug" (VStr "")) ;;
     if negb (truthy title) then ret None
     else
       match event with
       | VDict d =>
           match build d with
           | Built s => ret (Some s)
           | Expired => ret None
           | Crashed => raise ValueError    (* some exception *)
           end
       | _ => raise AttributeError
       end)
    (fun _ =>
       _ <- lift (get event "name" (VStr "Unknown")) ;;
       raise TypeError).

(** The loop of [scrape_taikai_events]. *)
Fixpoint transform_all (events : list Value) : L (list Scholarship) :=
  match events with
  | [] => ret []
  | event :: rest =>
      s <- transform_taikai_event event ;;
      tail <- transform_all rest ;;
      ret (match s with Some x => x :: tail | None => tail end)
  end.

Definition scrape_taikai_events_from (fetched : Res (option string))
  : L (list Scholarship) :=
  log "Starting TAIKAI scrape..." ;;
  events <- fetch_taikai_events_from fetched ;;
  items <- lift (iter events) ;;
  scholarships <- transform_all items ;;
  log "TAIKAI scrape complete" ;;
  ret scholarships.

(** The title that [transform_taikai_event] reads off a dictionary. *)
Definition title_of (d : list (string * Value)) : Value :=
  let name := match lookup "name" d with Some v => v | None => VStr "" end in
  if truthy name then name
  else match lookup "title" d with Some v => v | None => VStr "" end.

(** What an event adds to the list of [scrape_taikai_events] when its
    transformation returns. *)
Definition scholarship_of (event : Value) : list Scholarship :=
  match event with
  | VDict d =>
      if truthy (title_of d) then
        match build d with
        | Built s => [s]
        | _ => []
        end
      else []
  | _ => []
  end.

Definition is_dict (v : Value) : bool :=
  match v with VDict _ => true | _ => false end.

(** The exception with which the transformation of an event ends, if it
    raises. *)
Definition event_error (event : Value) : option Err :=
  match event with
  | VDict d =>
      if truthy (title_of d) then
        match build d with
        | Crashed => Some TypeError
        | _ => None
        end
      else None
  | _ => Some AttributeError
  end.

(** The exception of the first event whose transformation raises. *)
Fixpoint first_error (events : list Value) : option Err :=
  match events with
  | [] => None
  | event :: rest =>
      match event_error event with
      | Some e => Some e
      | None => first_error rest
      end
  end.

End Pipeline.

End Scraper.

Arguments Built {Scholarship} s.
Arguments Expired {Scholarship}.
Arguments Crashed {Scholarship}.

End Taikai.

(** ** chat_service.py: the search criteria of [ChatService]

    [message.lower()] is [PyStr.lower]. *)

Module Chat.

(** The dictionary [criteria]. *)
Record Criteria := mkCriteria {
  types : list string;
  urgency : string;
  min_amount : option Z;
  keywords : list string
}.

(** [_extract_search_criteria]; it does not read [profile]. *)
Definition _extract_search_criteria {Profile : Type}
    (message : string) (profile : Profile) : Criteria :=
  let message_lower := PyStr.lower message in
  let has word := PyStr.str_in word message_lower in
  (* Detect types *)
  let types := [] in
  let types := if has "hackathon" then types ++ ["hackathon"] else types in
  let types :=
    if has "bounty" || has "bounties" then types ++ ["bounty"] else types in
  let types := if has "scholarship" then types ++ ["scholarship"] else types in
  let types := if has "competition" then types ++ ["competition"] else types in
  (* Default to all types if none specified *)
  let types :=
    match types with
    | [] => ["scholarship"; "hackathon"; "bounty"; "competition"]
    | _ => types
    end in
  (* Detect urgency *)
  let urgency :=
    if PyStr.any_in ["urgent"; "now"; "today"; "asap"; "immediately"]
         message_lower
    then "immediate"
    else if PyStr.any_in ["this week"; "soon"; "quickly"] message_lower
    then "this_week"
    else if PyStr.any_in ["this month"; "month"] message_lower
    then "this_month"
    else "any" in
  {| types := types; urgency := urgency; min_amount := None; keywords := [] |}.

(** [sep.join(parts)] *)
Fixpoint join (sep : string) (parts : list string) : string :=
  match parts with
  | [] => EmptyString
  | [part] => part
  | part :: rest => (part ++ sep ++ join sep rest)%string
  end.

(** The two attributes of an opportunity that [_infer_type] reads. *)
Record Opportunity := mkOpportunity {
  tags : option (list string);
  description : option string
}.

(** The text in which [_infer_type] looks for its words. *)
Definition combined_text (opp : Opportunity) : string :=
  let tags_str :=
    PyStr.lower (join " " (match tags opp with Some l => l | None => [] end)) in
  let desc_str :=
    PyStr.lower (match description opp with Some d => d | None => "" end) in
  (tags_str ++ " " ++ desc_str)%string.

(** [_infer_type] *)
Definition _infer_type (opp : Opportunity) : string :=
  let combined := combined_text opp in
  if PyStr.str_in "hackathon" combined || PyStr.str_in "hack" combined
  then "hackathon"
  else if PyStr.str_in "bounty" combined || PyStr.str_in "bug" combined
  then "bounty"
  else if PyStr.str_in "competition" combined || PyStr.str_in "contest" combined
  then "competition"
  else "scholarship".

(** The type test of [_search_opportunities_with_stats]: the opportunity is
    counted as a type mismatch and left out. *)
Definition type_filtered (criteria : Criteria) (opp : Opportunity) : bool :=
  match types criteria with
  | [] => false
  | _ => negb (PyStr.mem (_infer_type opp) (types criteria))
  end.

(** The message names none of the types. *)
Definition names_no_type (message : string) : Prop :=
  PyStr.any_in ["hackathon"; "bounty"; "bounties"; "scholarship"; "competition"]
    (PyStr.lower message) = false.

Definition ALL_TYPES : list string :=
  ["scholarship"; "hackathon"; "bounty"; "competition"].

End Chat.

(** ** Pages of the TAIKAI site *)

Module TaikaiPages.
Import Py Taikai.

Definition quoted (s : string) : string := (quote ++ s ++ quote)%string.

Definition page_around (blob : string) : string :=
  ("<html><body>" ++ SCRIPT_OPEN ++ blob ++ SCRIPT_CLOSE ++ "</body></html>")%string.

Definition hackathon : Value :=
  VDict [("name", VStr "Hack"); ("slug", VStr "hack"); ("prize", VStr "1000")].

Definition hackathon_json : string :=
  ("{" ++ quoted "name" ++ ":" ++ quoted "Hack" ++ ","
   ++ quoted "slug" ++ ":" ++ quoted "hack" ++ ","
   ++ quoted "prize" ++ ":" ++ quoted "1000" ++ "}")%string.

(** The challenges are in the Apollo state only, and [initialState] is
    null. *)
Definition apollo_blob : string :=
  ("{" ++ quoted "props" ++ ":{" ++ quoted "pageProps" ++ ":{"
   ++ quoted "initialState" ++ ":null,"
   ++ quoted "apolloState" ++ ":{" ++ quoted "Challenge:1" ++ ":"
   ++ hackathon_json ++ "}}}}")%string.

Definition apollo_data : Value :=
  VDict [("props",
          VDict [("pageProps",
                  VDict [("initialState", VNone);
                         ("apolloState",
                          VDict [("Challenge:1", hackathon)])])])].

(** The challenges are in the Apollo state only, and the page properties
    hold nothing else. *)
Definition bare_blob : string :=
  ("{" ++ quoted "props" ++ ":{" ++ quoted "pageProps" ++ ":{"
   ++ quoted "apolloState" ++ ":{" ++ quoted "Challenge:1" ++ ":"
   ++ hackathon_json ++ "}}}}")%string.

Definition bare_data : Value :=
  VDict [("props",
          VDict [("pageProps",
                  VDict [("apolloState",
                          VDict [("Challenge:1", hackathon)])])])].

(** The challenges are the items of a dictionary. *)
Definition nested_blob : string :=
  ("{" ++ quoted "props" ++ ":{" ++ quoted "pageProps" ++ ":{"
   ++ quoted "challenges" ++ ":{" ++ quoted "items" ++ ":["
   ++ hackathon_json ++ "]}}}}")%string.

Definition nested_data : Value :=
  VDict [("props",
          VDict [("pageProps",
                  VDict [("challenges",
                          VDict [("items", VList [hackathon])])])])].

(** [json.loads] on the three blobs above. *)
Definition loads_page (s : string) : option Value :=
  if String.eqb s apollo_blob then Some apollo_data
  else if String.eqb s bare_blob then Some bare_data
  else if String.eqb s nested_blob then Some nested_data
  else None.

(** A transformation that keeps the name of the event. *)
Definition build_name (d : list (string * Value)) : Transformed string :=
  match lookup "name" d with
  | Some (VStr name) => Built name
  | _ => Crashed
  end.

(** [str] is not called on these pages. *)
Definition str_unused (_ : Value) : string := EmptyString.

End TaikaiPages.

Section Crawler.

(** [KafkaConfig.TOPIC_RAW_HTML], declared in [app.services.kafka_config]. *)
Variable TOPIC_RAW_HTML : string.

(** [urllib.parse.urlparse(url).netloc] *)
Variable urlparse_netloc : string -> string.

Variable self : UniversalCrawlerService.

Definition log (level : LogLevel) (msg : string) (url : string) : M unit :=
  emit (Log level msg (Some url)).

Definition sleep : M unit := emit Sleep.

(** [create_stealth_context]: [_init_browser], then [browser.new_context]
    with a profile drawn at random, then [context.add_init_script], as one
    step: the caller gets a context, or an exception and no context
    ([create_stealth_context'] has the two steps). *)
Definition create_stealth_context (b : Behaviour) : M unit :=
  if context_ok b then emit ContextCreated else raise ContextError.

Definition new_page (b : Behaviour) : M unit :=
  if new_page_ok b then emit PageOpened else raise NewPageError.

Definition page_route (b : Behaviour) (pattern : string) (handler : Handler)
  : M unit :=
  call (RouteRegistered pattern handler) (route_ok b) RouteError.

Definition set_extra_http_headers (b : Behaviour) : M unit :=
  call HeadersSet (headers_ok b) HeadersError.

Definition page_goto (b : Behaviour) (url wait_until : string) (timeout : Z)
  : M unit :=
  call (Goto url wait_until timeout) (goto_ok b wait_until timeout)
       (GotoError wait_until timeout).

Definition mouse_move (b : Behaviour) : M unit :=
  call MouseMove (mouse_ok b) MouseError.

Definition page_evaluate (b : Behaviour) (i : nat) (script : string) : M unit :=
  call (Evaluate script) (evaluate_ok b i) EvaluateError.

Definition wait_for_load_state (b : Behaviour) (state : string) (timeout : Z)
  : M unit :=
  call (WaitForLoadState state timeout) (networkidle_ok b) LoadStateError.

Definition get_content (b : Behaviour) : M string :=
  emit ReadContent ;;
  match page_content b with
  | Some c => ret c
  | None => raise ContentError
  end.

Definition get_title (b : Behaviour) : M string :=
  emit ReadTitle ;;
  match page_title b with
  | Some t => ret t
  | None => raise TitleError
  end.

(** [kafka_producer_manager.publish_to_stream(topic, key, value)]: returns a
    success flag, or raises. *)
Definition publish_to_stream (b : Behaviour) (topic key : string)
    (value : Payload) : M bool :=
  emit (Publish topic key value) ;;
  match publish_result b with
  | Some success => ret success
  | None => raise PublishError
  end.

(** [refinery_service.process_raw_event(key, value)] *)
Definition process_raw_event (b : Behaviour) (key : string) (value : Payload)
  : M unit :=
  call (ProcessRawEvent key value) (refinery_ok b) RefineryError.

Definition context_close : M unit := emit ContextClosed.
Definition page_close : M unit := emit PageClosed.

Definition _extract_domain (url : string) : string := urlparse_netloc url.

(** The [payload] dictionary of [_process_success]. *)
Definition build_payload (b : Behaviour) (url html_content title intent : string)
  : Payload :=
  {| payload_url := url;
     payload_title := title;
     payload_html := PyStr.take (Z.to_nat 200000) html_content;
     payload_crawled_at := clock b;
     payload_source := _extract_domain url;
     payload_intent := intent;
     payload_agent_type := "HunterDrone-V1" |}.

Definition _process_success (b : Behaviour)
    (url html_content title intent : string) : M unit :=
  let payload := build_payload b url html_content title intent in
  if kafka_initialized self then
    success <- publish_to_stream b TOPIC_RAW_HTML url payload ;;
    if success : bool then
      log INFO "Drone transmitted payload" url
    else
      log ERROR "Transmission jammed (Kafka fail) - Engaging Heartbeat Fallback" url ;;
      process_raw_event b url payload
  else
    log WARNING "Kafka offline - Engaging Heartbeat Fallback" url ;;
    process_raw_event b url payload.

(** The test of the blacklist branch. *)
Definition is_blacklisted (url : string) : bool :=
  PyStr.str_in "chegg.com" url || PyStr.str_in "chegg.com" (PyStr.lower url).

(** The SMART NAVIGATION block of [_crawl_single_target]. *)
Definition smart_navigation (b : Behaviour) (url : string) : M unit :=
  try_except
    (page_goto b url "domcontentloaded" 90000)
    (fun _ =>
       log DEBUG "Drone primary approach failed (networkidle), retrying with lenient wait" url ;;
       try_except
         (page_goto b url "domcontentloaded" 60000)
         (fun _ => page_goto b url "commit" 60000)).

(** The title test of the CONTENT GUARD. *)
Definition title_not_found (title : string) : bool :=
  PyStr.str_in "Page Not Found" title || PyStr.str_in "404" title.

(** The size test of the CONTENT GUARD. *)
Definition too_thin_content (content : string) : bool :=
  (Z.of_nat (String.length content) <? 5000)%Z.

(** The CONTENT GUARD block of [_crawl_single_target] and the call to
    [_process_success] that follows it; each [ret] is one way out of the
    method, named by the outcome it stands for. *)
Definition content_guard (b : Behaviour) (url intent content title : string)
  : M Outcome :=
  if title_not_found title then
    log WARNING "Drone mission aborted: 404/Not Found" url ;;
    ret (Skipped not_found)
  else if too_thin_content content then
    log WARNING "Drone mission aborted: Content too thin (Potential Loading Shell)" url ;;
    ret (Skipped too_thin)
  else
    _process_success b url content title intent ;;
    ret Success.

(** The body of the [try] of [_crawl_single_target]. *)
Definition crawl_body (b : Behaviour) (url intent : string) : M Outcome :=
  if is_blacklisted url then
    log WARNING "Drone ignoring dead target (Chegg Blacklist)" url ;;
    ret (Skipped blacklisted)
  else
    new_page b ;;
    page_route b "**/*" BatchHandler ;;
    set_extra_http_headers b ;;
    log INFO "Drone approaching target" url ;;
    smart_navigation b url ;;
    (* HUMAN INTERACTION LAYER *)
    mouse_move b ;;
    sleep ;;
    (* DEEP SCROLL *)
    for_range 3 (fun i =>
      page_evaluate b i "window.scrollBy(0, 1500)" ;;
      sleep) ;;
    (* Wait for content to stabilize *)
    try_except
      (sleep ;; wait_for_load_state b "networkidle" 10000)
      (fun _ => ret tt) ;;
    (* EXTRACT *)
    content <- get_content b ;;
    title <- get_title b ;;
    content_guard b url intent content title.

Definition _crawl_single_target (b : Behaviour) (url intent : string)
  : M Outcome :=
  create_stealth_context b ;;
  try_finally
    (try_except
       (crawl_body b url intent)
       (fun e => log ERROR "Drone crash" url ;; ret (Failed e)))
    context_close.

(** [fetch_content]; [page] is no longer [None] exactly when
    [context.new_page()] has returned. *)
Definition fetch_content (b : Behaviour) (url : string) : M (option string) :=
  create_stealth_context b ;;
  try_finally
    (try_except
       (new_page b ;;
        page_route b "**/*" FetchHandler ;;
        log INFO "Direct fetch approaching" url ;;
        try_except
          (page_goto b url "domcontentloaded" 60000)
          (fun _ =>
             log WARNING "Direct fetch timeout, retrying with fast load" url ;;
             page_goto b url "load" 30000) ;;
        sleep ;;
        content <- get_content b ;;
        ret (Some content))
       (fun e => log ERROR "Direct fetch failed" url ;; ret None))
    ((if new_page_ok b then page_close else ret tt) ;;
     context_close).

Definition batch_size : nat := 5.

(** [crawl_and_stream]; [env i] is the environment of the task of
    [urls[i]]. *)
Definition crawl_and_stream (env : nat -> Behaviour) (urls : list string)
    (intent : string) : M unit :=
  emit (Log INFO "Deploying Hunter Drone Squad" None) ;;
  for_each (range_step (length urls) batch_size) (fun i =>
    let batch := slice urls i (i + batch_size) in
    let tasks :=
      map (fun '(j, url) => _crawl_single_target (env j) url intent)
          (combine (seq i (length batch)) batch) in
    gather tasks ;;
    (* Stagger between batches *)
    sleep).

(** ** Stages of a crawl *)

(** The task got its context and came as far as the first [page.goto]. *)
Definition reaches_navigation (b : Behaviour) (url : string) : Prop :=
  context_ok b = true /\ is_blacklisted url = false /\ new_page_ok b = true
  /\ route_ok b = true /\ headers_ok b = true.

(** The answers of the three attempts of the SMART NAVIGATION block. *)
Definition first_attempt (b : Behaviour) : bool :=
  goto_ok b "domcontentloaded" 90000.
Definition second_attempt (b : Behaviour) : bool :=
  goto_ok b "domcontentloaded" 60000.
Definition last_attempt (b : Behaviour) : bool :=
  goto_ok b "commit" 60000.

Definition navigation_loads (b : Behaviour) : bool :=
  first_attempt b || second_attempt b || last_attempt b.

(** The page loaded, the pointer and scroll calls returned, and the page gave
    [content] and [title]. *)
Definition page_extracted (b : Behaviour) (url content title : string) : Prop :=
  reaches_navigation b url /\ navigation_loads b = true
  /\ mouse_ok b = true
  /\ evaluate_ok b 0 = true /\ evaluate_ok b 1 = true /\ evaluate_ok b 2 = true
  /\ page_content b = Some content /\ page_title b = Some title.

(** The events a task can leave once its page has loaded, up to and
    including delivery. *)
Definition after_load_event (ev : Event) : bool :=
  match ev with
  | MouseMove | Sleep | Evaluate _ | WaitForLoadState _ _
  | ReadContent | ReadTitle | Log _ _ _
  | Publish _ _ _ | ProcessRawEvent _ _ => true
  | _ => false
  end.

(** What a task has done, between getting its context and the CONTENT GUARD,
    when nothing before the guard raised. *)
Definition approach_trace (b : Behaviour) (url : string) : Trace :=
  [PageOpened; RouteRegistered "**/*" BatchHandler; HeadersSet;
   Log INFO "Drone approaching target" (Some url)]
  ++ snd (smart_navigation b url)
  ++ [MouseMove; Sleep;
      Evaluate "window.scrollBy(0, 1500)"; Sleep;
      Evaluate "window.scrollBy(0, 1500)"; Sleep;
      Evaluate "window.scrollBy(0, 1500)"; Sleep;
      Sleep; WaitForLoadState "networkidle" 10000;
      ReadContent; ReadTitle].

(** ** More vocabulary *)

Definition is_page_closed (ev : Event) : bool :=
  match ev with PageClosed => true | _ => false end.

(** The answers of the two attempts of [fetch_content]. *)
Definition fetch_first_attempt (b : Behaviour) : bool :=
  goto_ok b "domcontentloaded" 60000.
Definition fetch_second_attempt (b : Behaviour) : bool :=
  goto_ok b "load" 30000.

(** Every call of [fetch_content] between the creation of the context and
    [page.content()] returned. *)
Definition fetch_reaches_content (b : Behaviour) : bool :=
  new_page_ok b && route_ok b
  && (fetch_first_attempt b || fetch_second_attempt b).


(** An event with the [intent] field of its payload blanked. *)
Definition erase_intent (ev : Event) : Event :=
  let blank (v : Payload) :=
    mkPayload (payload_url v) (payload_title v) (payload_html v)
      (payload_crawled_at v) (payload_source v) "" (payload_agent_type v) in
  match ev with
  | Publish topic key v => Publish topic key (blank v)
  | ProcessRawEvent key v => ProcessRawEvent key (blank v)
  | _ => ev
  end.

(** The batches of [crawl_and_stream], in the order of the loop. *)
Definition batches (urls : list string) : list (list string) :=
  map (fun i => slice urls i (i + batch_size))
      (range_step (length urls) batch_size).

(** Two computations end alike and leave the same events, the [intent] of
    the payloads apart. *)
Definition same_but_intent {A} (m1 m2 : M A) : Prop :=
  fst m1 = fst m2 /\ map erase_intent (snd m1) = map erase_intent (snd m2).

(** ** The tasks with their set-up and clean-up

    The definitions above take [context.add_init_script], [page.close] and
    [context.close] as calls that return. The primed ones below are the same
    methods of the source with these three calls answered by a [Lifecycle]:
    [context_ok] then stands for [_init_browser] and [browser.new_context]
    alone. *)

Definition create_stealth_context' (b : Behaviour) (c : Lifecycle) : M unit :=
  (* _init_browser, then browser.new_context *)
  (if context_ok b then emit ContextCreated else raise ContextError) ;;
  (* context.add_init_script; the context is left open when it raises *)
  if init_script_ok c then ret tt else raise InitScriptError.

Definition context_close' (c : Lifecycle) : M unit :=
  if context_close_ok c then emit ContextClosed else raise ContextCloseError.

Definition page_close' (c : Lifecycle) : M unit :=
  if page_close_ok c then emit PageClosed else raise PageCloseError.

Definition _crawl_single_target' (b : Behaviour) (c : Lifecycle)
    (url intent : string) : M Outcome :=
  create_stealth_context' b c ;;
  try_finally
    (try_except
       (crawl_body b url intent)
       (fun e => log ERROR "Drone crash" url ;; ret (Failed e)))
    (context_close' c).

(** The [try] of [fetch_content] with its handler. *)
Definition fetch_attempt (b : Behaviour) (url : string) : M (option string) :=
  try_except
    (new_page b ;;
     page_route b "**/*" FetchHandler ;;
     log INFO "Direct fetch approaching" url ;;
     try_except
       (page_goto b url "domcontentloaded" 60000)
       (fun _ =>
          log WARNING "Direct fetch timeout, retrying with fast load" url ;;
          page_goto b url "load" 30000) ;;
     sleep ;;
     content <- get_content b ;;
     ret (Some content))
    (fun e => log ERROR "Direct fetch failed" url ;; ret None).

(** [page] is no longer [None] exactly when [context.new_page()] has
    returned; [context.close()] is awaited after [page.close()], in the same
    [finally]. *)
Definition fetch_content' (b : Behaviour) (c : Lifecycle) (url : string)
  : M (option string) :=
  create_stealth_context' b c ;;
  try_finally
    (fetch_attempt b url)
    ((if new_page_ok b then page_close' c else ret tt) ;;
     context_close' c).


(** The three calls of a [Lifecycle] return. *)
Definition tidy : Lifecycle := mkLifecycle true true true.

(** The task gets its context: [browser.new_context] and
    [context.add_init_script] return. *)
Definition obtains_context (b : Behaviour) (c : Lifecycle) : bool :=
  context_ok b && init_script_ok c.

(** The [finally] of [fetch_content] returns: [page.close()], when a page
    was opened, and [context.close()]. *)
Definition fetch_cleanup_returns (b : Behaviour) (c : Lifecycle) : bool :=
  (negb (new_page_ok b) || page_close_ok c) && context_close_ok c.

(** ** The caller in taikai_scraper.py *)

(** [fetch_taikai_events]: [fetch_content] on the TAIKAI page, then the two
    parses of the page. [json_loads] stands for [json.loads] (a value, or
    [None] when it raises) and [py_str] for [str]. *)
Definition fetch_taikai_events (json_loads : string -> option Py.Value)
    (py_str : Py.Value -> string) (b : Behaviour) : Py.L Py.Value :=
  Taikai.fetch_taikai_events_from json_loads py_str
    (fst (fetch_content b Taikai.TAIKAI_URL)).

(** An entry of the Apollo state that [fetch_taikai_events] keeps. *)
Definition is_full_challenge (entry : string * Py.Value) : bool :=
  let has key :=
    match Py.contains key (snd entry) with
    | Py.Ok found => found
    | Py.Error _ => false
    end in
  String.prefix "Challenge:" (fst entry)
  && has "name" && has "slug" && (has "prize" || has "shortDescription").

(** The values that [key in v] accepts: dictionaries, lists and strings. *)
Definition accepts_in (v : Py.Value) : bool :=
  match v with
  | Py.VDict _ | Py.VList _ | Py.VStr _ => true
  | _ => false
  end.

(** Every entry under a key that starts with "Challenge:" has such a
    value. *)
Definition challenge_entries_searchable (entries : list (string * Py.Value))
  : Prop :=
  Forall (fun entry =>
            String.prefix "Challenge:" (fst entry) = true ->
            accepts_in (snd entry) = true)
         entries.

(** A value that contains "name", "slug" and one of "prize" and
    "shortDescription". *)
Definition full_challenge (v : Py.Value) : Prop :=
  Py.contains "name" v = Py.Ok true
  /\ Py.contains "slug" v = Py.Ok true
  /\ (Py.contains "prize" v = Py.Ok true
      \/ Py.contains "shortDescription" v = Py.Ok true).

(** The test of [challenge_entries_searchable] on one entry. *)
Definition searchableb (entry : string * Py.Value) : bool :=
  negb (String.prefix "Challenge:" (fst entry)) || accepts_in (snd entry).

(** No character of [s] is [c]. *)
Fixpoint free_of (c : ascii) (s : string) : bool :=
  match s with
  | EmptyString => true
  | String c' s' => negb (Ascii.eqb c c') && free_of c s'
  end.

(** * Properties *)

(** ** Python strings *)

Import PyStr.

Lemma length_take (n : nat) (s : string) :
  String.length (take n s) = Nat.min n (String.length s).
Proof.
  revert s; induction n as [|n IH]; intros [|c s]; simpl; auto.
Qed.

Lemma take_prefix (n : nat) (s : string) :
  String.prefix (take n s) s = true.
Proof.
  revert s; induction n as [|n IH]; intros [|c s]; simpl; auto.
  destruct (Ascii.ascii_dec c c) as [_|ne]; [apply IH | now elim ne].
Qed.

Lemma take_app (n : nat) (s : string) :
  exists rest, s = (take n s ++ rest)%string.
Proof.
  revert s; induction n as [|n IH]; intros s.
  - exists s; reflexivity.
  - destruct s as [|c s].
    + exists EmptyString; reflexivity.
    + destruct (IH s) as [rest E]. exists rest. simpl. now rewrite <- E.
Qed.

Lemma take_all (n : nat) (s : string) :
  (String.length s <= n)%nat -> take n s = s.
Proof.
  revert s; induction n as [|n IH]; intros [|c s]; simpl; intros H; auto.
  - lia.
  - f_equal. apply IH. lia.
Qed.

Lemma mem_true_iff (x : string) (xs : list string) :
  mem x xs = true <-> In x xs.
Proof.
  unfold mem. rewrite existsb_exists. split.
  - intros (y & Hy & E). apply String.eqb_eq in E. now subst.
  - intros H. exists x. split; [assumption | apply String.eqb_refl].
Qed.

Lemma prefix_spec (d s : string) :
  String.prefix d s = true <-> exists post, s = (d ++ post)%string.
Proof.
  revert s; induction d as [|c d IH]; intros [|c' s]; simpl.
  - split; [now exists EmptyString | reflexivity].
  - split; [now exists (String c' s) | reflexivity].
  - split; [discriminate | intros [post E]; discriminate].
  - destruct (Ascii.ascii_dec c c') as [->|ne].
    + rewrite IH. split; intros [post E]; exists post.
      * now rewrite E.
      * now injection E.
    + split; [discriminate|].
      intros [post E]. injection E as E1 _. now elim ne.
Qed.

Lemma str_in_spec (d s : string) :
  str_in d s = true <-> Substring d s.
Proof.
  unfold Substring. induction s as [|c s IH].
  - cbn [str_in]. rewrite orb_false_r, prefix_spec. split.
    + intros [post E]. now exists EmptyString, post.
    + intros (pre & post & E). destruct pre; [now exists post|discriminate].
  - cbn [str_in]. rewrite orb_true_iff, prefix_spec, IH. split.
    + intros [[post E] | (pre & post & E)].
      * now exists EmptyString, post.
      * exists (String c pre), post. simpl. now rewrite E.
    + intros (pre & post & E). destruct pre as [|c' pre].
      * left. now exists post.
      * right. injection E as _ E. now exists pre, post.
Qed.

Lemma any_in_spec (ds : list string) (url : string) :
  any_in ds (lower url) = true <-> url_matches ds url.
Proof.
  unfold any_in, url_matches. rewrite existsb_exists.
  split; intros (d & Hd & H); exists d; split; auto; now apply str_in_spec.
Qed.

Lemma any_in_false (ds : list string) (url : string) :
  any_in ds (lower url) = false <-> ~ url_matches ds url.
Proof.
  rewrite <- any_in_spec. destruct (any_in ds (lower url)); split; congruence.
Qed.

Lemma mem_false_iff (x : string) (xs : list string) :
  mem x xs = false <-> ~ In x xs.
Proof.
  rewrite <- mem_true_iff. destruct (mem x xs); split; congruence.
Qed.


(** ** Request policy filters *)

Section RoutePolicy.

Lemma handle_route_cases (route : Request) :
  _handle_route route =
    if mem (resource_type route) heavy_types then Abort
    else if any_in BLOCKED_DOMAINS (lower (req_url route))
            && negb (any_in SAFE_DOMAINS (lower (req_url route)))
         then Abort else Continue.
Proof.
  unfold _handle_route, heavy_types.
  destruct (mem (resource_type route) _); [reflexivity|].
  destruct (any_in BLOCKED_DOMAINS _); [|reflexivity].
  now destruct (any_in SAFE_DOMAINS _).
Qed.

(** C5. The handler of the batch crawl aborts a request of resource type
    image, media or font whatever its URL; a request of another type is
    aborted when its (lower-cased) URL contains a blocked-domain substring and
    no safe-domain substring, is let through when it contains both, and is let
    through when it contains no blocked-domain substring. *)
Theorem handle_route_policy (route : Request) :
  (In (resource_type route) heavy_types -> _handle_route route = Abort)
  /\ (~ In (resource_type route) heavy_types ->
      url_matches BLOCKED_DOMAINS (req_url route) ->
      ~ url_matches SAFE_DOMAINS (req_url route) ->
      _handle_route route = Abort)
  /\ (~ In (resource_type route) heavy_types ->
      url_matches BLOCKED_DOMAINS (req_url route) ->
      url_matches SAFE_DOMAINS (req_url route) ->
      _handle_route route = Continue)
  /\ (~ In (resource_type route) heavy_types ->
      ~ url_matches BLOCKED_DOMAINS (req_url route) ->
      _handle_route route = Continue).
Proof.
  rewrite handle_route_cases. repeat split.
  - intros H. apply mem_true_iff in H. now rewrite H.
  - intros H Hb Hs. apply mem_false_iff in H. apply any_in_spec in Hb.
    apply any_in_false in Hs. now rewrite H, Hb, Hs.
  - intros H Hb Hs. apply mem_false_iff in H. apply any_in_spec in Hb.
    apply any_in_spec in Hs. now rewrite H, Hb, Hs.
  - intros H Hb. apply mem_false_iff in H. apply any_in_false in Hb.
    now rewrite H, Hb.
Qed.

Example handle_route_image_on_safe_domain :
  _handle_route (mkRequest "https://api.taikai.network/logo.png" "image") = Abort.
Proof. reflexivity. Qed.

Example handle_route_safe_overrides_block :
  _handle_route (mkRequest "https://API.linkedin.com/v2/jobs" "xhr") = Continue
  /\ _handle_route (mkRequest "https://www.linkedin.com/px.js" "script") = Abort
  /\ _handle_route (mkRequest "https://dorahacks.io/app.js" "script") = Continue.
Proof. repeat split. Qed.

Lemma fetch_content_route_cases (route : Request) :
  fetch_content_route route =
    if mem (resource_type route) ["image"; "media"; "font"; "stylesheet"]
    then Abort else Continue.
Proof. reflexivity. Qed.

(** C10. The handler of [fetch_content] aborts exactly the requests of type
    image, media, font or stylesheet and lets every other request through,
    whatever the URL. Its set of blocked types contains that of the batch
    handler, and strictly: the batch handler has no resource-type rule for a
    stylesheet, which it aborts only under its domain rule. *)
Theorem fetch_content_route_policy :
  (forall route,
      In (resource_type route) ["image"; "media"; "font"; "stylesheet"] ->
      fetch_content_route route = Abort)
  /\ (forall route,
      ~ In (resource_type route) ["image"; "media"; "font"; "stylesheet"] ->
      fetch_content_route route = Continue)
  /\ (forall route,
      In (resource_type route) heavy_types ->
      _handle_route route = Abort /\ fetch_content_route route = Abort)
  /\ (forall route,
      resource_type route = "stylesheet" ->
      fetch_content_route route = Abort
      /\ (_handle_route route = Abort <->
          url_matches BLOCKED_DOMAINS (req_url route)
          /\ ~ url_matches SAFE_DOMAINS (req_url route)))
  /\ (forall url url' rtype,
      fetch_content_route (mkRequest url rtype)
      = fetch_content_route (mkRequest url' rtype)).
Proof.
  split; [|split; [|split; [|split]]].
  - intros route H. rewrite fetch_content_route_cases.
    apply mem_true_iff in H. now rewrite H.
  - intros route H. rewrite fetch_content_route_cases.
    apply mem_false_iff in H. now rewrite H.
  - intros route H. split.
    + rewrite handle_route_cases. apply mem_true_iff in H. now rewrite H.
    + rewrite fetch_content_route_cases.
      assert (In (resource_type route) ["image"; "media"; "font"; "stylesheet"])
        as H' by (unfold heavy_types in H; simpl in *; tauto).
      apply mem_true_iff in H'. now rewrite H'.
  - intros route E. split.
    + rewrite fetch_content_route_cases, E. reflexivity.
    + rewrite handle_route_cases, E. cbn [mem heavy_types existsb].
      replace (("stylesheet" =? "image")%string) with false by reflexivity.
      replace (("stylesheet" =? "media")%string) with false by reflexivity.
      replace (("stylesheet" =? "font")%string) with false by reflexivity.
      cbn [orb]. rewrite <- any_in_spec, <- any_in_false.
      destruct (any_in BLOCKED_DOMAINS _), (any_in SAFE_DOMAINS _); cbn;
        intuition congruence.
  - intros url url' rtype. reflexivity.
Qed.

Example stylesheet_batch_continue_fetch_abort :
  _handle_route (mkRequest "https://taikai.network/main.css" "stylesheet") = Continue
  /\ fetch_content_route (mkRequest "https://taikai.network/main.css" "stylesheet") = Abort
  /\ fetch_content_route (mkRequest "https://www.google-analytics.com/a.js" "script") = Continue.
Proof. repeat split. Qed.

End RoutePolicy.

(** ** Traces of computations *)

Section TraceFacts.
Context {A B : Type} (P : Event -> Prop).

Lemma all_ret (a : A) : all_events P (ret a).
Proof. constructor. Qed.

Lemma all_raise (e : Exn) : all_events P (@raise A e).
Proof. constructor. Qed.

Lemma all_emit (ev : Event) : P ev -> all_events P (emit ev).
Proof. intros H. repeat constructor. exact H. Qed.

Lemma all_bind (m : M A) (k : A -> M B) :
  all_events P m ->
  (forall a, fst m = Ret a -> all_events P (k a)) ->
  all_events P (bind m k).
Proof.
  unfold all_events, bind. destruct m as [[a|e] t]; simpl; intros Hm Hk.
  - specialize (Hk a eq_refl). destruct (k a) as [r t']. simpl in *.
    apply Forall_app. now split.
  - exact Hm.
Qed.

Lemma all_try_except (m : M A) (h : Exn -> M A) :
  all_events P m ->
  (forall e, fst m = Raise e -> all_events P (h e)) ->
  all_events P (try_except m h).
Proof.
  unfold all_events, try_except. destruct m as [[a|e] t]; simpl; intros Hm Hh.
  - exact Hm.
  - specialize (Hh e eq_refl). destruct (h e) as [r t']. simpl in *.
    apply Forall_app. now split.
Qed.

Lemma all_try_finally (m : M A) (f : M unit) :
  all_events P m -> all_events P f -> all_events P (try_finally m f).
Proof.
  unfold all_events, try_finally. destruct m as [r t], f as [[u|e] t'];
    simpl; intros Hm Hf; apply Forall_app; now split.
Qed.

Lemma all_gather (tasks : list (M A)) :
  Forall (all_events P) tasks -> all_events P (gather tasks).
Proof.
  unfold all_events, gather. simpl. induction 1 as [|m ms Hm _ IH]; simpl.
  - constructor.
  - apply Forall_app. now split.
Qed.

End TraceFacts.

Lemma all_call (P : Event -> Prop) (ev : Event) (ok : bool) (e : Exn) :
  P ev -> all_events P (call ev ok e).
Proof.
  intros H. unfold call. apply all_bind; [now apply all_emit|].
  intros _ _. destruct ok; [apply all_ret | apply all_raise].
Qed.

Lemma all_for_range_from (P : Event -> Prop) (body : nat -> M unit) (n i : nat) :
  (forall j, all_events P (body j)) -> all_events P (for_range_from i n body).
Proof.
  intros H. revert i. induction n as [|n IH]; intros i; simpl.
  - apply all_ret.
  - apply all_bind; [apply H | intros _ _; apply IH].
Qed.

Lemma all_for_each {A} (P : Event -> Prop) (body : A -> M unit) (xs : list A) :
  (forall x, In x xs -> all_events P (body x)) -> all_events P (for_each xs body).
Proof.
  induction xs as [|x xs IH]; simpl; intros H.
  - apply all_ret.
  - apply all_bind; [apply H; now left | intros _ _; apply IH; auto].
Qed.

Lemma count_events_app (p : Event -> bool) (t t' : Trace) :
  count_events p (t ++ t') = count_events p t + count_events p t'.
Proof. unfold count_events. now rewrite filter_app, length_app. Qed.

Lemma count_events_none (p : Event -> bool) (t : Trace) :
  Forall (fun ev => p ev = false) t -> count_events p t = 0.
Proof.
  unfold count_events. induction 1 as [|ev t H _ IH]; simpl; [reflexivity|].
  now rewrite H.
Qed.

(** ** The crawler *)

(** Splits a goal [all_events P m] along the structure of [m]. *)
Ltac all_events_step :=
  first
    [ apply all_ret
    | apply all_raise
    | apply all_emit
    | apply all_call
    | apply all_bind; [|intros ? ?]
    | apply all_try_except; [|intros ? ?]
    | apply all_try_finally
    | apply all_for_range_from; intros ?
    | match goal with
      | |- all_events _ (if ?c then _ else _) => destruct c
      | |- all_events _ (match ?c with Some _ => _ | None => _ end) => destruct c
      end ].

Ltac all_events_tac :=
  unfold log, sleep, create_stealth_context, new_page, page_route,
    set_extra_http_headers, page_goto, mouse_move, page_evaluate,
    wait_for_load_state, get_content, get_title, publish_to_stream,
    process_raw_event, context_close, page_close, for_range;
  repeat all_events_step; try reflexivity.

Lemma process_success_no_context (b : Behaviour) (url html title intent : string) :
  all_events (fun ev => is_context_event ev = false)
             (_process_success b url html title intent).
Proof. unfold _process_success. all_events_tac. Qed.

Lemma content_guard_no_context (b : Behaviour) (url intent content title : string) :
  all_events (fun ev => is_context_event ev = false)
             (content_guard b url intent content title).
Proof.
  unfold content_guard.
  destruct (title_not_found title); [all_events_tac|].
  destruct (too_thin_content content); [all_events_tac|].
  apply all_bind; [apply process_success_no_context|].
  intros _ _. apply all_ret.
Qed.

Lemma smart_navigation_no_context (b : Behaviour) (url : string) :
  all_events (fun ev => is_context_event ev = false) (smart_navigation b url).
Proof. unfold smart_navigation. all_events_tac. Qed.

Lemma crawl_body_no_context (b : Behaviour) (url intent : string) :
  all_events (fun ev => is_context_event ev = false)
             (crawl_body b url intent).
Proof.
  unfold crawl_body.
  destruct (is_blacklisted url); [all_events_tac|].
  repeat (apply all_bind; [|intros ? ?]);
    try apply smart_navigation_no_context;
    try apply content_guard_no_context;
    all_events_tac.
Qed.

Lemma fetch_body_no_context (b : Behaviour) (url : string) :
  all_events (fun ev => is_context_event ev = false)
    (try_except
       (new_page b ;;
        page_route b "**/*" FetchHandler ;;
        log INFO "Direct fetch approaching" url ;;
        try_except
          (page_goto b url "domcontentloaded" 60000)
          (fun _ =>
             log WARNING "Direct fetch timeout, retrying with fast load" url ;;
             page_goto b url "load" 30000) ;;
        sleep ;;
        content <- get_content b ;;
        ret (Some content))
       (fun e => log ERROR "Direct fetch failed" url ;; ret None)).
Proof. all_events_tac. Qed.

Lemma crawl_target_shape (b : Behaviour) (url intent : string) :
  context_ok b = true ->
  exists body,
    snd (_crawl_single_target b url intent)
    = ContextCreated :: body ++ [ContextClosed]
    /\ Forall (fun ev => is_context_event ev = false) body.
Proof.
  intros Hc. unfold _crawl_single_target, create_stealth_context.
  rewrite Hc.
  pose proof (all_try_except (fun ev => is_context_event ev = false)
                (crawl_body b url intent)
                (fun e => log ERROR "Drone crash" url ;; ret (Failed e))
                (crawl_body_no_context b url intent)) as H.
  assert (all_events (fun ev => is_context_event ev = false)
            (try_except (crawl_body b url intent)
               (fun e => log ERROR "Drone crash" url ;; ret (Failed e)))) as Hall.
  { apply H. intros e _. all_events_tac. }
  clear H. unfold all_events in Hall.
  destruct (try_except _ _) as [r t]. simpl in *.
  exists t. split; [reflexivity | exact Hall].
Qed.

Lemma fetch_content_shape (b : Behaviour) (url : string) :
  context_ok b = true ->
  exists body,
    snd (fetch_content b url) = ContextCreated :: body ++ [ContextClosed]
    /\ Forall (fun ev => is_context_event ev = false) body.
Proof.
  intros Hc. unfold fetch_content, create_stealth_context. rewrite Hc.
  pose proof (fetch_body_no_context b url) as Hall. unfold all_events in Hall.
  destruct (try_except _ _) as [r t]. simpl in Hall.
  destruct (new_page_ok b); simpl.
  - exists (t ++ [PageClosed]). split.
    + now rewrite <- app_assoc.
    + apply Forall_app. split; [exact Hall | now repeat constructor].
  - exists t. split; [reflexivity | exact Hall].
Qed.

Lemma context_failure_trace (b : Behaviour) (url intent : string) :
  context_ok b = false ->
  _crawl_single_target b url intent = (Raise ContextError, [])
  /\ fetch_content b url = (Raise ContextError, []).
Proof.
  intros Hc. unfold _crawl_single_target, fetch_content, create_stealth_context.
  now rewrite Hc.
Qed.

Lemma count_context_shape (body : Trace) :
  Forall (fun ev => is_context_event ev = false) body ->
  count_events is_context_created (ContextCreated :: body ++ [ContextClosed]) = 1
  /\ count_events is_context_closed (ContextCreated :: body ++ [ContextClosed]) = 1.
Proof.
  intros H.
  assert (Forall (fun ev => is_context_created ev = false) body
          /\ Forall (fun ev => is_context_closed ev = false) body) as [H1 H2].
  { split; eapply Forall_impl; try exact H; intros ev E;
      unfold is_context_event in E; apply orb_false_iff in E; tauto. }
  change (ContextCreated :: body ++ [ContextClosed])
    with ([ContextCreated] ++ body ++ [ContextClosed]).
  rewrite !count_events_app, (count_events_none _ _ H1), (count_events_none _ _ H2).
  split; reflexivity.
Qed.

(** When [context.add_init_script], [page.close()] and [context.close()]
    return: whatever else the browser, the page, the producer and the
    refinery answer, a task that got its browsing context closes it as the
    last thing it does, in [_crawl_single_target] and in [fetch_content]
    alike. A task that got no context left no event. *)
Lemma context_closed_on_every_exit (b : Behaviour) (url intent : string) :
  let closes (t : Trace) :=
    exists body,
      t = ContextCreated :: body ++ [ContextClosed]
      /\ Forall (fun ev => is_context_event ev = false) body
      /\ count_events is_context_created t = 1
      /\ count_events is_context_closed t = 1 in
  if context_ok b then
    closes (snd (_crawl_single_target b url intent))
    /\ closes (snd (fetch_content b url))
  else
    snd (_crawl_single_target b url intent) = []
    /\ snd (fetch_content b url) = [].
Proof.
  cbv zeta. destruct (context_ok b) eqn:Hc.
  - split.
    + destruct (crawl_target_shape b url intent Hc) as (body & E & H).
      exists body. rewrite E. repeat split; auto; now apply count_context_shape.
    + destruct (fetch_content_shape b url Hc) as (body & E & H).
      exists body. rewrite E. repeat split; auto; now apply count_context_shape.
  - destruct (context_failure_trace b url intent Hc) as [E1 E2].
    now rewrite E1, E2.
Qed.

(** *** Delivery *)

Lemma process_success_cases (b : Behaviour) (url html_content title intent : string) :
  let payload := build_payload b url html_content title intent in
  _process_success b url html_content title intent =
    if kafka_initialized self then
      match publish_result b with
      | Some true =>
          (Ret tt, [Publish TOPIC_RAW_HTML url payload;
                    Log INFO "Drone transmitted payload" (Some url)])
      | Some false =>
          (if refinery_ok b then Ret tt else Raise RefineryError,
           [Publish TOPIC_RAW_HTML url payload;
            Log ERROR "Transmission jammed (Kafka fail) - Engaging Heartbeat Fallback" (Some url);
            ProcessRawEvent url payload])
      | None => (Raise PublishError, [Publish TOPIC_RAW_HTML url payload])
      end
    else
      (if refinery_ok b then Ret tt else Raise RefineryError,
       [Log WARNING "Kafka offline - Engaging Heartbeat Fallback" (Some url);
        ProcessRawEvent url payload]).
Proof.
  cbv zeta. unfold _process_success, publish_to_stream, process_raw_event, call, log.
  destruct (kafka_initialized self); [destruct (publish_result b) as [[|]|]|];
    try destruct (refinery_ok b); reflexivity.
Qed.

(** The delivery when the publish call, if made, returns. With the backbone
    initialized and a publish call that reports success, the payload is
    published under its URL and the fallback is not called. With the backbone
    uninitialized the publish call is not made, and with a publish call that
    reports failure it is made once and not again; in both cases the fallback
    entry point gets the same key (the URL) and the same payload, once.
    Exactly one of the two paths is then taken, and the two paths leave
    different log lines. *)
Lemma process_success_one_path (b : Behaviour)
    (url html_content title intent : string) :
  let payload := build_payload b url html_content title intent in
  let t := snd (_process_success b url html_content title intent) in
  (kafka_initialized self = true -> publish_result b = Some true ->
     t = [Publish TOPIC_RAW_HTML url payload;
          Log INFO "Drone transmitted payload" (Some url)]
     /\ count_events is_publish t = 1 /\ count_events is_fallback t = 0)
  /\ (kafka_initialized self = true -> publish_result b = Some false ->
     t = [Publish TOPIC_RAW_HTML url payload;
          Log ERROR "Transmission jammed (Kafka fail) - Engaging Heartbeat Fallback" (Some url);
          ProcessRawEvent url payload]
     /\ count_events is_publish t = 1 /\ count_events is_fallback t = 1)
  /\ (kafka_initialized self = false ->
     t = [Log WARNING "Kafka offline - Engaging Heartbeat Fallback" (Some url);
          ProcessRawEvent url payload]
     /\ count_events is_publish t = 0 /\ count_events is_fallback t = 1)
  /\ (kafka_initialized self = false \/ publish_result b <> None ->
     xorb (stream_path_taken t) (fallback_path_taken t) = true
     /\ count_events is_publish t <= 1
     /\ count_events is_fallback t <= 1).
Proof.
  cbv zeta. rewrite process_success_cases. cbv zeta.
  split; [|split; [|split]].
  - intros -> ->. repeat split.
  - intros -> ->. repeat split.
  - intros ->. repeat split.
  - intros H. destruct (kafka_initialized self).
    + destruct (publish_result b) as [[|]|]; cbn; [auto | auto |].
      destruct H as [H|H]; [discriminate | now elim H].
    + cbn. auto.
Qed.

Lemma process_success_payloads (b : Behaviour)
    (url html_content title intent : string) :
  Forall (fun ev => forall v, event_payload ev = Some v ->
                    v = build_payload b url html_content title intent)
         (snd (_process_success b url html_content title intent)).
Proof.
  rewrite process_success_cases. cbv zeta.
  destruct (kafka_initialized self); [destruct (publish_result b) as [[|]|]|];
    cbn [snd]; repeat constructor; intros v E; cbn in E; congruence.
Qed.

(** The payloads a whole task hands over are built from the content and the
    title that its page gave. *)
Lemma crawl_target_payloads (b : Behaviour) (url intent : string) :
  Forall (fun ev => forall v, event_payload ev = Some v ->
                    exists content title,
                      page_content b = Some content
                      /\ page_title b = Some title
                      /\ v = build_payload b url content title intent)
         (snd (_crawl_single_target b url intent)).
Proof.
  change (all_events
            (fun ev => forall v, event_payload ev = Some v ->
               exists content title,
                 page_content b = Some content /\ page_title b = Some title
                 /\ v = build_payload b url content title intent)
            (_crawl_single_target b url intent)).
  unfold _crawl_single_target, crawl_body, smart_navigation.
  apply all_bind; [all_events_tac; intros v E; discriminate E|]. intros _ _.
  apply all_try_finally; [|all_events_tac; intros v E; discriminate E].
  apply all_try_except; [|intros e _; all_events_tac; intros v E; discriminate E].
  destruct (is_blacklisted url); [all_events_tac; intros v E; discriminate E|].
  do 9 (apply all_bind; [all_events_tac; intros v E; discriminate E|];
        intros _ _).
  apply all_bind; [all_events_tac; intros v E; discriminate E|].
  intros content Hc.
  apply all_bind; [all_events_tac; intros v E; discriminate E|].
  intros title Ht.
  assert (page_content b = Some content) as Hc'.
  { unfold get_content, bind, emit in Hc.
    destruct (page_content b); cbn in Hc; congruence. }
  assert (page_title b = Some title) as Ht'.
  { unfold get_title, bind, emit in Ht.
    destruct (page_title b); cbn in Ht; congruence. }
  unfold content_guard.
  destruct (title_not_found title); [all_events_tac; intros v E; discriminate E|].
  destruct (too_thin_content content);
    [all_events_tac; intros v E; discriminate E|].
  apply all_bind; [|intros _ _; apply all_ret].
  eapply Forall_impl; [|apply process_success_payloads].
  intros ev H v E. exists content, title. auto.
Qed.

(** The cut of the page content, in characters. The payload that
    [_process_success] hands over, on whichever path, is the one built from
    its arguments, and its [html] field is the first 200000 characters of the
    page content: a prefix of it, never longer than 200000 characters, and
    exactly 200000 long when the content is longer. Every payload that a
    crawl task hands over is built this way from the content of its page. *)
Lemma payload_html_capped (b : Behaviour)
    (url html_content title intent : string) :
  let payload := build_payload b url html_content title intent in
  Forall (fun ev => forall v, event_payload ev = Some v -> v = payload)
         (snd (_process_success b url html_content title intent))
  /\ String.prefix (payload_html payload) html_content = true
  /\ (exists rest, html_content = (payload_html payload ++ rest)%string)
  /\ (Z.of_nat (String.length (payload_html payload)) <= 200000)%Z
  /\ ((200000 < Z.of_nat (String.length html_content))%Z ->
      Z.of_nat (String.length (payload_html payload)) = 200000%Z)
  /\ ((Z.of_nat (String.length html_content) <= 200000)%Z ->
      payload_html payload = html_content)
  /\ Forall (fun ev => forall v, event_payload ev = Some v ->
                       exists content,
                         page_content b = Some content
                         /\ String.prefix (payload_html v) content = true
                         /\ (Z.of_nat (String.length (payload_html v))
                             <= 200000)%Z)
            (snd (_crawl_single_target b url intent)).
Proof.
  cbv zeta. split; [apply process_success_payloads|].
  unfold build_payload; cbn [payload_html]. repeat split.
  - apply take_prefix.
  - apply take_app.
  - rewrite length_take. lia.
  - intros H. rewrite length_take. lia.
  - intros H. apply take_all. lia.
  - eapply Forall_impl; [|apply crawl_target_payloads].
    intros ev H v E. destruct (H v E) as (content & title' & Hc & _ & ->).
    exists content. cbn [payload_html build_payload].
    split; [exact Hc|]. split; [apply take_prefix|].
    rewrite length_take. lia.
Qed.

(** *** Navigation and the way to the guard *)

Lemma smart_navigation_cases (b : Behaviour) (url : string) :
  smart_navigation b url =
    if first_attempt b then
      (Ret tt, [Goto url "domcontentloaded" 90000])
    else if second_attempt b then
      (Ret tt,
       [Goto url "domcontentloaded" 90000;
        Log DEBUG "Drone primary approach failed (networkidle), retrying with lenient wait" (Some url);
        Goto url "domcontentloaded" 60000])
    else
      (if last_attempt b then Ret tt else Raise (GotoError "commit" 60000),
       [Goto url "domcontentloaded" 90000;
        Log DEBUG "Drone primary approach failed (networkidle), retrying with lenient wait" (Some url);
        Goto url "domcontentloaded" 60000;
        Goto url "commit" 60000]).
Proof.
  unfold smart_navigation, page_goto, call, log, first_attempt, second_attempt,
    last_attempt.
  destruct (goto_ok b "domcontentloaded" 90000); [reflexivity|].
  destruct (goto_ok b "domcontentloaded" 60000); [reflexivity|].
  destruct (goto_ok b "commit" 60000); reflexivity.
Qed.

Lemma smart_navigation_loaded (b : Behaviour) (url : string) :
  navigation_loads b = true -> fst (smart_navigation b url) = Ret tt.
Proof.
  unfold navigation_loads. rewrite smart_navigation_cases.
  destruct (first_attempt b), (second_attempt b), (last_attempt b);
    simpl; congruence.
Qed.


Lemma crawl_body_extracted (b : Behaviour) (url intent content title : string) :
  page_extracted b url content title ->
  crawl_body b url intent
  = (fst (content_guard b url intent content title),
     approach_trace b url ++ snd (content_guard b url intent content title)).
Proof.
  intros ((Hc & Hb & Hp & Hr & Hh) & Hn & Hm & He0 & He1 & He2 & Hct & Htt).
  apply (smart_navigation_loaded b url) in Hn.
  unfold crawl_body, approach_trace, new_page, page_route,
    set_extra_http_headers, mouse_move, for_range, page_evaluate,
    wait_for_load_state, get_content, get_title, call, log, sleep.
  rewrite Hb, Hp, Hr, Hh, Hm, Hct, Htt. cbn [for_range_from].
  rewrite He0, He1, He2.
  destruct (smart_navigation b url) as [[[]|e] nav]; [|discriminate].
  destruct (networkidle_ok b); cbn -[content_guard];
    destruct (content_guard b url intent content title) as [r t];
    cbn; rewrite <- !app_assoc; reflexivity.
Qed.


Lemma crawl_target_extracted (b : Behaviour) (url intent content title : string) :
  page_extracted b url content title ->
  _crawl_single_target b url intent
  = (fst (try_except (content_guard b url intent content title)
            (fun e => log ERROR "Drone crash" url ;; ret (Failed e))),
     ContextCreated
     :: approach_trace b url
     ++ snd (try_except (content_guard b url intent content title)
               (fun e => log ERROR "Drone crash" url ;; ret (Failed e)))
     ++ [ContextClosed]).
Proof.
  intros H. pose proof H as ((Hc & _) & _).
  unfold _crawl_single_target, create_stealth_context, context_close.
  rewrite Hc, (crawl_body_extracted b url intent content title H).
  destruct (content_guard b url intent content title) as [[o|e] t];
    cbn; rewrite <- ?app_assoc; reflexivity.
Qed.




Lemma approach_trace_no_fallback (b : Behaviour) (url : string) :
  count_events is_fallback (approach_trace b url) = 0.
Proof.
  unfold approach_trace. rewrite smart_navigation_cases.
  destruct (first_attempt b); [reflexivity|].
  destruct (second_attempt b); reflexivity.
Qed.

(** A publish call that raises ends [_process_success] there: the
    exception leaves the method after the one publish call, with no log line
    and no call of the fallback entry point. The [except] clause of the
    target catches it: the task logs the crash, ends [Failed] and closes its
    context, and its trace has no call of the fallback entry point. *)
Lemma publish_exception_skips_fallback (b : Behaviour)
    (url intent content title : string) :
  kafka_initialized self = true ->
  publish_result b = None ->
  let payload := build_payload b url content title intent in
  _process_success b url content title intent
  = (Raise PublishError, [Publish TOPIC_RAW_HTML url payload])
  /\ (page_extracted b url content title ->
      title_not_found title = false ->
      too_thin_content content = false ->
      _crawl_single_target b url intent
      = (Ret (Failed PublishError),
         ContextCreated :: approach_trace b url
         ++ [Publish TOPIC_RAW_HTML url payload;
             Log ERROR "Drone crash" (Some url);
             ContextClosed])
      /\ count_events is_fallback (snd (_crawl_single_target b url intent)) = 0).
Proof.
  intros Hk Hp payload.
  assert (_process_success b url content title intent
          = (Raise PublishError, [Publish TOPIC_RAW_HTML url payload])) as E.
  { rewrite process_success_cases. cbv zeta. now rewrite Hk, Hp. }
  split; [exact E|]. intros H Ht Hs.
  rewrite (crawl_target_extracted b url intent content title H).
  unfold content_guard. rewrite Ht, Hs, E. cbn -[approach_trace count_events].
  split; [reflexivity|].
  change (ContextCreated :: ?t) with ([ContextCreated] ++ t).
  now rewrite !count_events_app, approach_trace_no_fallback.
Qed.

(** *** The blacklist *)



(** *** The navigation ladder *)

Lemma content_guard_after_load (b : Behaviour) (url intent content title : string) :
  all_events (fun ev => after_load_event ev = true)
             (content_guard b url intent content title).
Proof.
  unfold content_guard, _process_success.
  destruct (title_not_found title); [all_events_tac|].
  destruct (too_thin_content content); all_events_tac.
Qed.

Lemma crawl_target_navigated (b : Behaviour) (url intent : string) :
  reaches_navigation b url ->
  exists rest,
    Forall (fun ev => after_load_event ev = true) rest
    /\ snd (_crawl_single_target b url intent)
       = [ContextCreated; PageOpened; RouteRegistered "**/*" BatchHandler;
          HeadersSet; Log INFO "Drone approaching target" (Some url)]
         ++ snd (smart_navigation b url) ++ rest ++ [ContextClosed]
    /\ (fst (smart_navigation b url) = Ret tt -> exists t, rest = MouseMove :: t)
    /\ (forall e, fst (smart_navigation b url) = Raise e ->
        fst (_crawl_single_target b url intent) = Ret (Failed e)
        /\ rest = [Log ERROR "Drone crash" (Some url)]).
Proof.
  intros (Hc & Hb & Hp & Hr & Hh).
  unfold _crawl_single_target, crawl_body, create_stealth_context.
  rewrite Hc, Hb.
  match goal with
  | |- context [bind (smart_navigation b url) ?k] => remember k as K eqn:HK
  end.
  assert (all_events (fun ev => after_load_event ev = true) (K tt)) as HKq.
  { subst K. repeat (apply all_bind; [|intros ? ?]);
      try apply content_guard_after_load; all_events_tac. }
  assert (exists t, snd (K tt) = MouseMove :: t) as [t0 HK0].
  { subst K. unfold mouse_move, call, emit, bind.
    destruct (mouse_ok b); cbn.
    - match goal with |- context [let (_, _) := ?m in _] => destruct m end.
      cbn. eexists; reflexivity.
    - eexists; reflexivity. }
  unfold new_page, page_route, set_extra_http_headers, call, log, context_close.
  rewrite Hp, Hr, Hh.
  destruct (smart_navigation b url) as [[[]|e] nav]; cbn.
  - unfold all_events in HKq. destruct (K tt) as [[o|e] t]; cbn in *.
    + exists t. split; [exact HKq|]. split; [now rewrite <- ?app_assoc|].
      split; [intros _; now exists t0 | discriminate].
    + exists (t ++ [Log ERROR "Drone crash" (Some url)]).
      split; [apply Forall_app; split; [exact HKq | now repeat constructor]|].
      split; [now rewrite <- ?app_assoc|].
      split; [|discriminate].
      intros _. rewrite HK0. now exists (t0 ++ [Log ERROR "Drone crash" (Some url)]).
  - exists [Log ERROR "Drone crash" (Some url)].
    split; [now repeat constructor|]. split; [now rewrite <- ?app_assoc|].
    split; [discriminate|]. intros e' E. injection E as <-. now split.
Qed.

Lemma after_load_not_navigation (t : Trace) :
  Forall (fun ev => after_load_event ev = true) t ->
  filter is_navigation t = [] /\ (forall ev, In ev t -> is_navigation ev = false).
Proof.
  intros H. assert (forall ev, In ev t -> is_navigation ev = false) as Hn.
  { rewrite Forall_forall in H. intros ev Hin. specialize (H ev Hin).
    destruct ev; simpl in *; congruence. }
  split; [|exact Hn]. clear H.
  induction t as [|ev t IH]; simpl; [reflexivity|].
  rewrite (Hn ev (or_introl eq_refl)). apply IH. intros ev' Hin.
  apply Hn. now right.
Qed.



(** *** The orchestrator *)

Lemma raises_bind_emit {A} (ev : Event) (k : unit -> M A) :
  raises (bind (emit ev) k) = raises (k tt).
Proof. unfold raises, bind, emit. now destruct (k tt) as [[a|e] t]. Qed.

Lemma raises_bind {A B} (m : M A) (k : A -> M B) :
  raises m = true -> raises (bind m k) = true.
Proof. unfold raises, bind. now destruct m as [[a|e] t]. Qed.

Lemma gather_results_raises {A} (rs : list (Res A)) :
  (exists e, In (Raise e) rs) -> exists e, gather_results rs = Raise e.
Proof.
  induction rs as [|[a|e] rs IH]; intros [e' Hin]; simpl in *.
  - contradiction.
  - destruct Hin as [Heq|Hin]; [discriminate|].
    destruct (IH (ex_intro _ e' Hin)) as [e'' ->]. now exists e''.
  - now exists e.
Qed.

Lemma gather_raises {A} (tasks : list (M A)) :
  (exists m, In m tasks /\ raises m = true) -> raises (gather tasks) = true.
Proof.
  intros (m & Hin & Hr). unfold raises, gather in *. cbn [fst].
  destruct (fst m) as [a|e] eqn:E; [discriminate|].
  destruct (gather_results_raises (map fst tasks)) as [e' ->]; [|reflexivity].
  exists e. rewrite <- E. now apply in_map.
Qed.

Lemma for_each_raises {A} (xs : list A) (body : A -> M unit) :
  (exists x, In x xs /\ raises (body x) = true) ->
  raises (for_each xs body) = true.
Proof.
  induction xs as [|x xs IH]; intros (y & Hin & Hr); simpl in *.
  - contradiction.
  - destruct (raises (body x)) eqn:Hx; [now apply raises_bind|].
    destruct Hin as [->|Hin]; [congruence|].
    unfold raises, bind in *. destruct (body x) as [[[]|e] t]; [|discriminate].
    specialize (IH (ex_intro _ y (conj Hin Hr))).
    now destruct (for_each xs body) as [[u|e] t'].
Qed.

Lemma range_step_batch (n i : nat) :
  i < n -> In (i / batch_size * batch_size) (range_step n batch_size).
Proof.
  intros H. unfold range_step, batch_size.
  apply in_map_iff. exists (i / 5). split; [reflexivity|].
  apply in_seq. split; [lia|]. cbn [plus].
  pose proof (Nat.div_mod_eq (n + 5 - 1) 5).
  pose proof (Nat.mod_upper_bound (n + 5 - 1) 5 ltac:(lia)).
  pose proof (Nat.div_mod_eq i 5).
  pose proof (Nat.mod_upper_bound i 5 ltac:(lia)).
  nia.
Qed.

(** The batch of a target whose context cannot be created raises. *)
Lemma failing_batch_raises (env : nat -> Behaviour) (urls : list string)
    (intent : string) (i : nat) :
  i < length urls ->
  context_ok (env i) = false ->
  let x := i / batch_size * batch_size in
  let batch := slice urls x (x + batch_size) in
  raises
    (gather
       (map (fun '(j, url) => _crawl_single_target (env j) url intent)
            (combine (seq x (length batch)) batch))) = true.
Proof.
  intros Hi Hc x batch. apply gather_raises.
  assert (x <= i < x + batch_size) as Hx.
  { unfold x, batch_size.
    pose proof (Nat.div_mod_eq i 5).
    pose proof (Nat.mod_upper_bound i 5 ltac:(lia)). lia. }
  assert (i - x < length batch) as Hlen.
  { unfold batch, slice. rewrite length_firstn, length_skipn.
    unfold batch_size in *. lia. }
  exists (_crawl_single_target (env i) (nth (i - x) batch "") intent).
  split.
  - apply in_map_iff. exists (i, nth (i - x) batch ""). split; [reflexivity|].
    replace i with (nth (i - x) (seq x (length batch)) 0) at 1
      by (rewrite seq_nth; lia).
    rewrite <- combine_nth by now rewrite length_seq.
    apply nth_In. rewrite length_combine, length_seq. lia.
  - unfold raises.
    now rewrite (proj1 (context_failure_trace (env i) _ intent Hc)).
Qed.

(** When the context of one target cannot be created, the exception leaves
    [crawl_and_stream], whatever the other targets do. *)
Lemma context_failure_raises (env : nat -> Behaviour) (urls : list string)
    (intent : string) (i : nat) :
  i < length urls ->
  context_ok (env i) = false ->
  raises (crawl_and_stream env urls intent) = true.
Proof.
  intros Hi Hc. unfold crawl_and_stream.
  rewrite raises_bind_emit. apply for_each_raises.
  exists (i / batch_size * batch_size). split; [now apply range_step_batch|].
  apply raises_bind. now apply failing_batch_raises.
Qed.

(** A batch that raises is the last one: the batches after it leave no
    event. *)
Lemma for_each_stops {A} (xs ys : list A) (x : A) (body : A -> M unit) :
  raises (body x) = true ->
  for_each (xs ++ x :: ys) body = for_each (xs ++ [x]) body.
Proof.
  intros Hx. induction xs as [|x' xs IH]; simpl.
  - unfold raises, bind in *. now destruct (body x) as [[[]|e] t].
  - now rewrite IH.
Qed.

Lemma for_each_ext {A} (xs : list A) (body body' : A -> M unit) :
  (forall x, In x xs -> body x = body' x) ->
  for_each xs body = for_each xs body'.
Proof.
  induction xs as [|x xs IH]; simpl; intros H; [reflexivity|].
  rewrite (H x (or_introl eq_refl)), IH; [reflexivity|].
  intros y Hy. apply H. now right.
Qed.

Lemma range_step_split (n k : nat) :
  k * batch_size < n ->
  exists ys,
    range_step n batch_size
    = map (fun j => j * batch_size) (seq 0 k) ++ (k * batch_size) :: ys.
Proof.
  intros H. unfold range_step, batch_size in *.
  set (c := (n + 5 - 1) / 5).
  assert (k < c) as Hk.
  { unfold c. pose proof (Nat.div_mod_eq (n + 5 - 1) 5).
    pose proof (Nat.mod_upper_bound (n + 5 - 1) 5 ltac:(lia)). nia. }
  replace c with (k + S (c - k - 1)) by lia.
  rewrite seq_app, map_app. cbn [seq map plus].
  eexists. reflexivity.
Qed.

Lemma range_step_last (n k : nat) :
  k * batch_size < n <= (k + 1) * batch_size ->
  range_step n batch_size
  = map (fun j => j * batch_size) (seq 0 k) ++ [k * batch_size].
Proof.
  intros H. unfold range_step, batch_size in *.
  assert ((n + 5 - 1) / 5 = k + 1) as ->.
  { pose proof (Nat.div_mod_eq (n + 5 - 1) 5).
    pose proof (Nat.mod_upper_bound (n + 5 - 1) 5 ltac:(lia)). nia. }
  now rewrite seq_app, map_app.
Qed.

Lemma slice_firstn {A} (xs : list A) (m x : nat) :
  x + batch_size <= m ->
  slice (firstn m xs) x (x + batch_size) = slice xs x (x + batch_size).
Proof.
  intros H. unfold slice.
  rewrite skipn_firstn_comm, firstn_firstn. f_equal. lia.
Qed.

(** When the context of the target at index [i] cannot be created,
    [crawl_and_stream] does what it does on the list cut after the batch of
    that target: the targets of the later batches are never looked at. *)
Lemma context_failure_stops_crawl (env : nat -> Behaviour) (urls : list string)
    (intent : string) (i : nat) :
  i < length urls ->
  context_ok (env i) = false ->
  crawl_and_stream env urls intent
  = crawl_and_stream env
      (firstn ((i / batch_size + 1) * batch_size) urls) intent.
Proof.
  intros Hi Hc. set (k := i / batch_size).
  assert (k * batch_size <= i < (k + 1) * batch_size) as Hk.
  { unfold k, batch_size. pose proof (Nat.div_mod_eq i 5).
    pose proof (Nat.mod_upper_bound i 5 ltac:(lia)). lia. }
  unfold crawl_and_stream. f_equal.
  destruct (range_step_split (length urls) k ltac:(lia)) as [ys Hsplit].
  rewrite Hsplit.
  rewrite (range_step_last (length (firstn ((k + 1) * batch_size) urls)) k)
    by (rewrite length_firstn; lia).
  match goal with
  | |- (fun _ => for_each ?l ?f) = (fun _ => for_each ?l' ?f') =>
      set (body := f); set (body' := f');
      assert (for_each l body = for_each l' body') as E; [|now rewrite E]
  end.
  assert (forall x, In x (map (fun j => j * batch_size) (seq 0 k)
                          ++ [k * batch_size]) ->
                    body' x = body x) as Hext.
  { intros x Hx. unfold body, body'.
    rewrite slice_firstn; [reflexivity|].
    apply in_app_or in Hx. destruct Hx as [Hx|[<-|[]]]; [|lia].
    apply in_map_iff in Hx. destruct Hx as (j & <- & Hj).
    apply in_seq in Hj. unfold batch_size. lia. }
  rewrite (for_each_ext _ body' body Hext).
  apply for_each_stops.
  unfold body. apply raises_bind. now apply failing_batch_raises.
Qed.

(** * Further properties of the crawler *)

(** ** What leaves a task *)

Lemma try_except_returns {A} (m : M A) (h : Exn -> M A) :
  (forall e, raises (h e) = false) -> raises (try_except m h) = false.
Proof.
  intros H. unfold raises, try_except in *. destruct m as [[a|e] t]; cbn.
  - reflexivity.
  - specialize (H e). destruct (h e) as [[a|e'] t']; cbn in *; congruence.
Qed.



(** ** The direct fetch *)


(** ** Batches *)

Lemma firstn_add {A} (a c : nat) (l : list A) :
  firstn (a + c) l = firstn a l ++ firstn c (skipn a l).
Proof.
  revert l; induction a as [|a IH]; intros [|x l]; simpl;
    rewrite ?firstn_nil; auto.
  now rewrite IH.
Qed.

Lemma chunks_firstn {A} (l : list A) (k : nat) :
  concat (map (fun i => slice l i (i + batch_size))
              (map (fun j => j * batch_size) (seq 0 k)))
  = firstn (k * batch_size) l.
Proof.
  induction k as [|k IH]; [reflexivity|].
  rewrite seq_S, !map_app, concat_app, IH. cbn [map concat plus].
  rewrite app_nil_r. unfold slice.
  replace (k * batch_size + batch_size - k * batch_size) with batch_size by lia.
  rewrite <- firstn_add. f_equal. lia.
Qed.

Lemma batch_count (n : nat) :
  length (range_step n batch_size) = (n + batch_size - 1) / batch_size.
Proof. unfold range_step. now rewrite length_map, length_seq. Qed.

Lemma batch_count_bounds (n : nat) :
  let c := (n + batch_size - 1) / batch_size in
  n <= c * batch_size < n + batch_size.
Proof.
  cbv zeta. unfold batch_size.
  pose proof (Nat.div_mod_eq (n + 5 - 1) 5).
  pose proof (Nat.mod_upper_bound (n + 5 - 1) 5 ltac:(lia)). lia.
Qed.

Lemma batch_length (urls : list string) (i : nat) :
  length (slice urls i (i + batch_size))
  = Nat.min batch_size (length urls - i).
Proof.
  unfold slice. rewrite length_firstn, length_skipn. f_equal. lia.
Qed.

(** X4. The batches of [crawl_and_stream] cut the list of URLs into
    consecutive pieces: put end to end they give the list back (no URL is
    dropped, repeated or reordered), each has between one and five URLs, all
    but the last have exactly five, and there are ceil(n / 5) of them; an
    empty list gives no batch. *)
Theorem batches_partition (urls : list string) :
  concat (batches urls) = urls
  /\ Forall (fun batch => 1 <= length batch <= batch_size) (batches urls)
  /\ (forall k, S k < length (batches urls) ->
        length (nth k (batches urls) []) = batch_size)
  /\ length (batches urls) = (length urls + batch_size - 1) / batch_size
  /\ (urls = [] -> batches urls = []).
Proof.
  pose proof (batch_count_bounds (length urls)) as Hc. cbv zeta in Hc.
  unfold batches.
  split; [|split; [|split; [|split]]].
  - unfold range_step. rewrite chunks_firstn. apply firstn_all2. lia.
  - apply Forall_forall. intros batch Hin.
    apply in_map_iff in Hin. destruct Hin as (i & <- & Hi).
    unfold range_step in Hi. apply in_map_iff in Hi.
    destruct Hi as (j & <- & Hj). apply in_seq in Hj.
    rewrite batch_length. unfold batch_size in *. lia.
  - intros k Hk. rewrite length_map, batch_count in Hk.
    rewrite (nth_indep _ [] (slice urls 0 (0 + batch_size)))
      by (rewrite length_map, batch_count; lia).
    rewrite (map_nth (fun i => slice urls i (i + batch_size))).
    unfold range_step.
    rewrite (nth_indep _ 0 (0 * batch_size))
      by (rewrite length_map, length_seq; lia).
    rewrite (map_nth (fun j => j * batch_size)), seq_nth by lia.
    rewrite batch_length. unfold batch_size in *. lia.
  - now rewrite length_map, batch_count.
  - intros ->. reflexivity.
Qed.

(** ** A crawl in which every context can be created *)










(** ** Where a task navigates *)

Lemma not_reaching_navigation (b : Behaviour) (url intent : string) :
  context_ok b && negb (is_blacklisted url) && new_page_ok b && route_ok b
  && headers_ok b = false ->
  count_events is_navigation (snd (_crawl_single_target b url intent)) = 0.
Proof.
  unfold _crawl_single_target, crawl_body, create_stealth_context, new_page,
    page_route, set_extra_http_headers, call, log, context_close.
  destruct (context_ok b); [|reflexivity].
  destruct (is_blacklisted url); [reflexivity|].
  destruct (new_page_ok b); [|reflexivity].
  destruct (route_ok b); [|reflexivity].
  destruct (headers_ok b); [discriminate|reflexivity].
Qed.

(** X6. A crawl task navigates only to its own URL, and never before the
    batch route handler and the extra headers are in place: a trace with a
    navigation in it begins with the context, the page, the registration of
    the handler on every URL, the headers, the log line and the 90 s
    DOM-ready attempt, in this order. *)
Theorem task_navigates_own_url (b : Behaviour) (url intent : string) :
  let t := snd (_crawl_single_target b url intent) in
  Forall (fun ev => is_navigation ev = true -> visits url ev = true) t
  /\ (count_events is_navigation t = 0
      \/ exists rest,
           t = [ContextCreated; PageOpened;
                RouteRegistered "**/*" BatchHandler; HeadersSet;
                Log INFO "Drone approaching target" (Some url);
                Goto url "domcontentloaded" 90000] ++ rest).
Proof.
  cbv zeta.
  destruct (context_ok b && negb (is_blacklisted url) && new_page_ok b
            && route_ok b && headers_ok b) eqn:Hreach.
  - assert (reaches_navigation b url) as H.
    { unfold reaches_navigation.
      destruct (context_ok b), (is_blacklisted url), (new_page_ok b),
        (route_ok b), (headers_ok b); try discriminate; auto. }
    destruct (crawl_target_navigated b url intent H)
      as (rest & Hrest & -> & _).
    apply after_load_not_navigation in Hrest. destruct Hrest as [_ Hrest].
    split.
    + assert (forall t : Trace,
                (forall ev, In ev t -> is_navigation ev = true ->
                            visits url ev = true) ->
                Forall (fun ev => is_navigation ev = true ->
                                  visits url ev = true) t) as Hfa
        by (intros t Ht; apply Forall_forall; exact Ht).
      repeat rewrite Forall_app. repeat split; apply Hfa; intros ev Hin Hnav.
      * cbn in Hin. repeat destruct Hin as [<-|Hin]; try discriminate.
        contradiction.
      * rewrite smart_navigation_cases in Hin.
        destruct (first_attempt b); [|destruct (second_attempt b)];
          cbn in Hin; repeat destruct Hin as [<-|Hin];
          try discriminate; try contradiction; cbn; apply String.eqb_refl.
      * rewrite (Hrest ev Hin) in Hnav. discriminate.
      * cbn in Hin. destruct Hin as [<-|[]]. discriminate.
    + right. rewrite smart_navigation_cases.
      destruct (first_attempt b); [|destruct (second_attempt b)];
        cbn [snd app]; eexists; reflexivity.
  - pose proof (not_reaching_navigation b url intent Hreach) as H0.
    split; [|now left].
    apply Forall_forall. intros ev Hin Hnav. exfalso.
    unfold count_events in H0. apply length_zero_iff_nil in H0.
    assert (In ev (filter is_navigation
                     (snd (_crawl_single_target b url intent)))) as Hf
      by (apply filter_In; auto).
    now rewrite H0 in Hf.
Qed.

(** ** When a target ends in success *)


(** ** The intent label *)

Lemma same_refl {A} (m : M A) : same_but_intent m m.
Proof. split; reflexivity. Qed.

Lemma same_bind {A B} (m1 m2 : M A) (k1 k2 : A -> M B) :
  same_but_intent m1 m2 ->
  (forall a, same_but_intent (k1 a) (k2 a)) ->
  same_but_intent (bind m1 k1) (bind m2 k2).
Proof.
  unfold same_but_intent, bind.
  destruct m1 as [[a1|e1] t1], m2 as [[a2|e2] t2]; cbn; intros [E1 E2] Hk;
    try discriminate.
  - injection E1 as ->. destruct (Hk a2) as [F1 F2].
    destruct (k1 a2) as [r1 u1], (k2 a2) as [r2 u2]. cbn in *.
    now rewrite !map_app, E2, F1, F2.
  - injection E1 as ->. split; [reflexivity | exact E2].
Qed.

Lemma same_try_except {A} (m1 m2 : M A) (h1 h2 : Exn -> M A) :
  same_but_intent m1 m2 ->
  (forall e, same_but_intent (h1 e) (h2 e)) ->
  same_but_intent (try_except m1 h1) (try_except m2 h2).
Proof.
  unfold same_but_intent, try_except.
  destruct m1 as [[a1|e1] t1], m2 as [[a2|e2] t2]; cbn; intros [E1 E2] Hh;
    try discriminate.
  - now split.
  - injection E1 as ->. destruct (Hh e2) as [F1 F2].
    destruct (h1 e2) as [r1 u1], (h2 e2) as [r2 u2]. cbn in *.
    now rewrite !map_app, E2, F1, F2.
Qed.

Lemma same_try_finally {A} (m1 m2 : M A) (f : M unit) :
  same_but_intent m1 m2 ->
  same_but_intent (try_finally m1 f) (try_finally m2 f).
Proof.
  unfold same_but_intent, try_finally.
  destruct m1 as [r1 t1], m2 as [r2 t2], f as [[u|e] t]; cbn;
    intros [-> E]; now rewrite !map_app, E.
Qed.

Lemma process_success_same (b : Behaviour) (url content title i1 i2 : string) :
  same_but_intent (_process_success b url content title i1)
                  (_process_success b url content title i2).
Proof.
  rewrite !process_success_cases. cbv zeta.
  destruct (kafka_initialized self); [destruct (publish_result b) as [[|]|]|];
    split; reflexivity.
Qed.

(** X8. The intent label changes nothing a task does: two runs of
    [_crawl_single_target] on the same URL in the same environment end with
    the same outcome and leave the same events, except that the payload
    carries the label it was given. *)
Theorem intent_only_labels_payload (b : Behaviour) (url i1 i2 : string) :
  same_but_intent (_crawl_single_target b url i1)
                  (_crawl_single_target b url i2)
  /\ Forall (fun ev => forall v, event_payload ev = Some v ->
                       payload_intent v = i1)
            (snd (_crawl_single_target b url i1)).
Proof.
  split.
  - unfold _crawl_single_target.
    apply same_bind; [apply same_refl|]. intros _.
    apply same_try_finally.
    apply same_try_except; [|intros e; apply same_refl].
    unfold crawl_body. destruct (is_blacklisted url); [apply same_refl|].
    do 9 (apply same_bind; [apply same_refl|]; intros _).
    apply same_bind; [apply same_refl|]. intros content.
    apply same_bind; [apply same_refl|]. intros title.
    unfold content_guard.
    destruct (title_not_found title); [apply same_refl|].
    destruct (too_thin_content content); [apply same_refl|].
    apply same_bind; [apply process_success_same|].
    intros _. apply same_refl.
  - eapply Forall_impl; [|apply crawl_target_payloads].
    intros ev H v E. destruct (H v E) as (content & title & _ & _ & ->).
    reflexivity.
Qed.

(** ** The blacklist and letter case *)

Lemma lower_app (s t : string) :
  PyStr.lower (s ++ t) = (PyStr.lower s ++ PyStr.lower t)%string.
Proof. induction s as [|c s IH]; simpl; [reflexivity | now rewrite IH]. Qed.

Lemma lower_ascii_idem (c : ascii) :
  PyStr.lower_ascii (PyStr.lower_ascii c) = PyStr.lower_ascii c.
Proof. destruct c as [[] [] [] [] [] [] [] []]; reflexivity. Qed.

Lemma lower_idem (s : string) : PyStr.lower (PyStr.lower s) = PyStr.lower s.
Proof.
  induction s as [|c s IH]; simpl; [reflexivity|].
  now rewrite lower_ascii_idem, IH.
Qed.

Lemma substring_lower (d s : string) :
  PyStr.lower d = d -> Substring d s -> Substring d (PyStr.lower s).
Proof.
  intros Hd (pre & post & ->). exists (PyStr.lower pre), (PyStr.lower post).
  now rewrite !lower_app, Hd.
Qed.

(** X9. The blacklist test does not depend on letter case: a URL is
    blacklisted exactly when "chegg.com" occurs in its lower-cased form (the
    first of the two tests of the code never decides), so two URLs that
    differ only in case are treated alike. *)
Theorem blacklist_ignores_case (url : string) :
  is_blacklisted url = PyStr.str_in "chegg.com" (PyStr.lower url)
  /\ is_blacklisted (PyStr.lower url) = is_blacklisted url
  /\ (forall url', PyStr.lower url' = PyStr.lower url ->
                   is_blacklisted url' = is_blacklisted url).
Proof.
  assert (forall u, is_blacklisted u
                    = PyStr.str_in "chegg.com" (PyStr.lower u)) as H.
  { intros u. unfold is_blacklisted.
    destruct (PyStr.str_in "chegg.com" u) eqn:E; [|reflexivity].
    apply str_in_spec in E.
    apply (substring_lower "chegg.com" u eq_refl) in E.
    apply str_in_spec in E. now rewrite E. }
  split; [apply H|]. split.
  - now rewrite !H, lower_idem.
  - intros url' E. now rewrite !H, E.
Qed.

(** * The tasks with their set-up and clean-up *)

Lemma crawl_attempt_returns (b : Behaviour) (url intent : string) :
  exists r t,
    try_except (crawl_body b url intent)
      (fun e => log ERROR "Drone crash" url ;; ret (Failed e))
    = (Ret r, t)
    /\ Forall (fun ev => is_context_event ev = false) t.
Proof.
  pose proof (all_try_except (fun ev => is_context_event ev = false)
                (crawl_body b url intent)
                (fun e => log ERROR "Drone crash" url ;; ret (Failed e))
                (crawl_body_no_context b url intent)) as H.
  assert (all_events (fun ev => is_context_event ev = false)
            (try_except (crawl_body b url intent)
               (fun e => log ERROR "Drone crash" url ;; ret (Failed e)))) as Hall.
  { apply H. intros e _. all_events_tac. }
  pose proof (try_except_returns (crawl_body b url intent)
                (fun e => log ERROR "Drone crash" url ;; ret (Failed e))
                (fun _ => eq_refl)) as Hr.
  unfold all_events in Hall. unfold raises in Hr.
  destruct (try_except _ _) as [[r|e] t]; [|discriminate Hr].
  now exists r, t.
Qed.

Lemma fetch_attempt_returns (b : Behaviour) (url : string) :
  exists r t,
    fetch_attempt b url = (Ret r, t)
    /\ Forall (fun ev => is_context_event ev = false) t.
Proof.
  pose proof (fetch_body_no_context b url) as Hall.
  change (all_events (fun ev => is_context_event ev = false)
            (fetch_attempt b url)) in Hall.
  assert (raises (fetch_attempt b url) = false) as Hr
    by (apply try_except_returns; reflexivity).
  unfold all_events in Hall. unfold raises in Hr.
  destruct (fetch_attempt b url) as [[r|e] t]; [|discriminate Hr].
  now exists r, t.
Qed.

(** The four ways a crawl task can go around its [try]. *)
Lemma crawl_task_cases (b : Behaviour) (c : Lifecycle) (url intent : string) :
  let attempt :=
    try_except (crawl_body b url intent)
      (fun e => log ERROR "Drone crash" url ;; ret (Failed e)) in
  _crawl_single_target' b c url intent =
    if context_ok b then
      if init_script_ok c then
        if context_close_ok c then
          (fst attempt, ContextCreated :: snd attempt ++ [ContextClosed])
        else (Raise ContextCloseError, ContextCreated :: snd attempt)
      else (Raise InitScriptError, [ContextCreated])
    else (Raise ContextError, []).
Proof.
  cbv zeta. unfold _crawl_single_target', create_stealth_context',
    context_close'.
  destruct (context_ok b); [|reflexivity].
  destruct (init_script_ok c); [|reflexivity].
  destruct (try_except _ _) as [r t].
  destruct (context_close_ok c); cbn; [reflexivity|].
  now rewrite app_nil_r.
Qed.

(** The same for [fetch_content]: its [finally] closes the page first. *)
Lemma fetch_task_cases (b : Behaviour) (c : Lifecycle) (url : string) :
  let attempt := fetch_attempt b url in
  fetch_content' b c url =
    if context_ok b then
      if init_script_ok c then
        if new_page_ok b then
          if page_close_ok c then
            if context_close_ok c then
              (fst attempt,
               ContextCreated :: snd attempt ++ [PageClosed; ContextClosed])
            else
              (Raise ContextCloseError,
               ContextCreated :: snd attempt ++ [PageClosed])
          else (Raise PageCloseError, ContextCreated :: snd attempt)
        else
          if context_close_ok c then
            (fst attempt, ContextCreated :: snd attempt ++ [ContextClosed])
          else (Raise ContextCloseError, ContextCreated :: snd attempt)
      else (Raise InitScriptError, [ContextCreated])
    else (Raise ContextError, []).
Proof.
  cbv zeta. unfold fetch_content', create_stealth_context', context_close',
    page_close'.
  destruct (context_ok b); [|reflexivity].
  destruct (init_script_ok c); [|reflexivity].
  destruct (fetch_attempt b url) as [r t].
  destruct (new_page_ok b), (page_close_ok c), (context_close_ok c); cbn;
    rewrite ?app_nil_r; reflexivity.
Qed.


Lemma fetch_task_tidy (b : Behaviour) (url : string) :
  fetch_content' b tidy url = fetch_content b url.
Proof.
  rewrite fetch_task_cases. cbv zeta. cbn [tidy init_script_ok page_close_ok
    context_close_ok].
  unfold fetch_content, create_stealth_context, context_close, page_close.
  destruct (context_ok b); [|reflexivity].
  change (try_except _ _) with (fetch_attempt b url).
  destruct (fetch_attempt b url) as [r t].
  destruct (new_page_ok b); cbn; rewrite <- ?app_assoc; reflexivity.
Qed.

(** X1. What leaves a task. [_crawl_single_target] raises exactly when its
    context cannot be set up ([browser.new_context] or
    [context.add_init_script] raises) or [context.close()] raises in the
    [finally]; [fetch_content] raises in these cases and when [page.close()]
    raises on the page it opened. Every other failure (page, route, headers,
    navigation, pointer, scroll, extraction, publish, fallback) is caught
    inside. *)
Theorem escapes_at_setup_and_cleanup (b : Behaviour) (c : Lifecycle)
    (url intent : string) :
  raises (_crawl_single_target' b c url intent)
  = negb (obtains_context b c && context_close_ok c)
  /\ raises (fetch_content' b c url)
     = negb (obtains_context b c && fetch_cleanup_returns b c).
Proof.
  unfold obtains_context, fetch_cleanup_returns. split.
  - rewrite crawl_task_cases. cbv zeta.
    destruct (crawl_attempt_returns b url intent) as (r & t & -> & _).
    destruct (context_ok b), (init_script_ok c), (context_close_ok c);
      reflexivity.
  - rewrite fetch_task_cases. cbv zeta.
    destruct (fetch_attempt_returns b url) as (r & t & -> & _).
    destruct (context_ok b), (init_script_ok c), (new_page_ok b),
      (page_close_ok c), (context_close_ok c); reflexivity.
Qed.

Lemma fetch_attempt_cases (b : Behaviour) (url : string) :
  fetch_attempt b url =
    if new_page_ok b then
      if route_ok b then
        let opened :=
          [PageOpened; RouteRegistered "**/*" FetchHandler;
           Log INFO "Direct fetch approaching" (Some url);
           Goto url "domcontentloaded" 60000] in
        let retried :=
          [Log WARNING "Direct fetch timeout, retrying with fast load" (Some url);
           Goto url "load" 30000] in
        let failed := [Log ERROR "Direct fetch failed" (Some url)] in
        let extract :=
          match page_content b with
          | Some content => (Ret (Some content), [Sleep; ReadContent])
          | None => (Ret None, [Sleep; ReadContent] ++ failed)
          end in
        if fetch_first_attempt b then (fst extract, opened ++ snd extract)
        else if fetch_second_attempt b then
          (fst extract, opened ++ retried ++ snd extract)
        else (Ret None, opened ++ retried ++ failed)
      else
        (Ret None,
         [PageOpened; RouteRegistered "**/*" FetchHandler;
          Log ERROR "Direct fetch failed" (Some url)])
    else (Ret None, [Log ERROR "Direct fetch failed" (Some url)]).
Proof.
  unfold fetch_attempt, new_page, page_route, page_goto, get_content, call,
    log, sleep, fetch_first_attempt, fetch_second_attempt.
  destruct (new_page_ok b); [|reflexivity].
  destruct (route_ok b); [|reflexivity].
  destruct (goto_ok b "domcontentloaded" 60000);
    [destruct (page_content b); reflexivity|].
  destruct (goto_ok b "load" 30000); [|reflexivity].
  destruct (page_content b); reflexivity.
Qed.

(** X2. What [fetch_content] gives back. It raises when its context cannot
    be set up, when [page.close()] raises on the page it opened, and when
    [context.close()] raises, in this order of precedence. Otherwise it
    returns the page content exactly as [page.content()] gave it (no title or
    size guard, no 200000 cap) when the page opened, the route was
    registered, one of its two navigation attempts returned and the content
    could be read, and [None] in every other case. It navigates at most
    twice: DOM-ready with 60 s, then full load with 30 s only if the first
    attempt raised. *)
Theorem fetch_content_outcome (b : Behaviour) (c : Lifecycle) (url : string) :
  fst (fetch_content' b c url)
  = (if negb (context_ok b) then Raise ContextError
     else if negb (init_script_ok c) then Raise InitScriptError
     else if new_page_ok b && negb (page_close_ok c) then Raise PageCloseError
     else if negb (context_close_ok c) then Raise ContextCloseError
     else Ret (if fetch_reaches_content b then page_content b else None))
  /\ filter is_navigation (snd (fetch_content' b c url))
     = (if obtains_context b c && new_page_ok b && route_ok b
        then if fetch_first_attempt b
             then [Goto url "domcontentloaded" 60000]
             else [Goto url "domcontentloaded" 60000; Goto url "load" 30000]
        else []).
Proof.
  rewrite fetch_task_cases, fetch_attempt_cases.
  unfold fetch_reaches_content, obtains_context. cbv zeta.
  destruct (context_ok b); [|split; reflexivity].
  destruct (init_script_ok c); [|split; reflexivity].
  destruct (new_page_ok b).
  - destruct (route_ok b).
    + destruct (fetch_first_attempt b), (fetch_second_attempt b),
        (page_content b), (page_close_ok c), (context_close_ok c);
        split; reflexivity.
    + destruct (page_close_ok c), (context_close_ok c); split; reflexivity.
  - destruct (context_close_ok c); split; reflexivity.
Qed.

(** X3. [fetch_content] only fetches: it never publishes to the stream and
    never calls the refinery, and it sets no extra headers. It opens at most
    one page and closes it only after it opened it. [context.close()] comes
    after [page.close()] in the same [finally]: a trace with a page and a
    closed context ends with the page closed and then the context closed,
    and when [page.close()] raises the context is not closed. *)
Theorem fetch_content_cleanup (b : Behaviour) (c : Lifecycle) (url : string) :
  let t := snd (fetch_content' b c url) in
  count_events is_delivery t = 0
  /\ ~ In HeadersSet t
  /\ count_events is_page_opened t
     = (if obtains_context b c && new_page_ok b then 1 else 0)
  /\ count_events is_page_closed t
     = (if obtains_context b c && new_page_ok b && page_close_ok c
        then 1 else 0)
  /\ (In PageOpened t -> In ContextClosed t ->
      exists body, t = body ++ [PageClosed; ContextClosed])
  /\ (In PageOpened t -> page_close_ok c = false -> ~ In ContextClosed t).
Proof.
  clear TOPIC_RAW_HTML urlparse_netloc self.
  cbv zeta. rewrite fetch_task_cases, fetch_attempt_cases.
  unfold obtains_context. cbv zeta.
  destruct (context_ok b); [|cbn; intuition].
  destruct (init_script_ok c);
    [|cbn; repeat split; try reflexivity; intuition discriminate].
  destruct (new_page_ok b).
  - destruct (route_ok b).
    + destruct (fetch_first_attempt b), (fetch_second_attempt b),
        (page_content b), (page_close_ok c), (context_close_ok c); cbn;
        (split; [reflexivity|]); (split; [intuition discriminate|]);
        (split; [reflexivity|]); (split; [reflexivity|]);
        (split; [|intuition discriminate]);
        intros _ H;
        first
          [ exfalso; revert H; clear; cbn; intuition discriminate
          | match goal with
            | |- exists body, ?l = _ =>
                exists (removelast (removelast l)); reflexivity
            end ].
    + destruct (page_close_ok c), (context_close_ok c); cbn;
        (split; [reflexivity|]); (split; [intuition discriminate|]);
        (split; [reflexivity|]); (split; [reflexivity|]);
        (split; [|intuition discriminate]);
        intros _ H;
        first
          [ exfalso; revert H; clear; cbn; intuition discriminate
          | match goal with
            | |- exists body, ?l = _ =>
                exists (removelast (removelast l)); reflexivity
            end ].
  - destruct (context_close_ok c); cbn; repeat split; try reflexivity;
      intuition discriminate.
Qed.

Lemma count_context_events (t closing : Trace) :
  Forall (fun ev => is_context_event ev = false) t ->
  count_events is_context_created (ContextCreated :: t ++ closing)
  = 1 + count_events is_context_created closing
  /\ count_events is_context_closed (ContextCreated :: t ++ closing)
     = count_events is_context_closed closing.
Proof.
  intros H.
  assert (Forall (fun ev => is_context_created ev = false) t
          /\ Forall (fun ev => is_context_closed ev = false) t) as [H1 H2].
  { split; eapply Forall_impl; try exact H; intros ev E;
      unfold is_context_event in E; apply orb_false_iff in E; tauto. }
  change (ContextCreated :: t ++ closing)
    with ([ContextCreated] ++ t ++ closing).
  rewrite !count_events_app, (count_events_none _ _ H1),
    (count_events_none _ _ H2).
  split; reflexivity.
Qed.

(** X22. When a context is closed. A task creates at most one context, when
    [browser.new_context] returns. [_crawl_single_target] closes it exactly
    when [context.add_init_script] and [context.close()] return;
    [fetch_content] closes it exactly when these return and [page.close()]
    did not raise before. In the other cases the task ends with a context
    that was created and not closed, whatever happened in its [try]. *)
Theorem context_closed_exactly_when (b : Behaviour) (c : Lifecycle)
    (url intent : string) :
  let task := snd (_crawl_single_target' b c url intent) in
  let fetch := snd (fetch_content' b c url) in
  count_events is_context_created task = (if context_ok b then 1 else 0)
  /\ count_events is_context_closed task
     = (if obtains_context b c && context_close_ok c then 1 else 0)
  /\ count_events is_context_created fetch = (if context_ok b then 1 else 0)
  /\ count_events is_context_closed fetch
     = (if obtains_context b c && fetch_cleanup_returns b c then 1 else 0).
Proof.
  cbv zeta. unfold obtains_context, fetch_cleanup_returns.
  rewrite crawl_task_cases, fetch_task_cases. cbv zeta.
  destruct (crawl_attempt_returns b url intent) as (r & t & -> & Ht).
  destruct (fetch_attempt_returns b url) as (r' & t' & -> & Ht').
  cbn [fst snd].
  pose proof (count_context_events t [ContextClosed] Ht) as [A1 A2].
  pose proof (count_context_events t [] Ht) as [A3 A4].
  pose proof (count_context_events t' [PageClosed; ContextClosed] Ht')
    as [B1 B2].
  pose proof (count_context_events t' [PageClosed] Ht') as [B3 B4].
  pose proof (count_context_events t' [ContextClosed] Ht') as [B5 B6].
  pose proof (count_context_events t' [] Ht') as [B7 B8].
  rewrite app_nil_r in A3, A4, B7, B8.
  destruct (context_ok b); [|repeat split; reflexivity].
  destruct (init_script_ok c); [|repeat split; reflexivity].
  destruct (new_page_ok b), (page_close_ok c), (context_close_ok c);
    cbn [snd andb orb negb]; repeat split; assumption.
Qed.



(** ** Characters and bytes *)

Lemma utf8_length_ascii (s : string) :
  PyStr.is_ascii s = true -> PyStr.utf8_length s = Z.of_nat (String.length s).
Proof.
  induction s as [|ch s IH]; [reflexivity|].
  cbn [PyStr.is_ascii PyStr.utf8_length String.length].
  intros H. apply andb_true_iff in H. destruct H as [H1 H2].
  rewrite H1, (IH H2). lia.
Qed.

Lemma take_ascii (n : nat) (s : string) :
  PyStr.is_ascii s = true -> PyStr.is_ascii (PyStr.take n s) = true.
Proof.
  revert s; induction n as [|n IH]; intros [|ch s]; cbn; auto.
  intros H. apply andb_true_iff in H. destruct H as [H1 H2].
  now rewrite H1, (IH s H2).
Qed.

(** On a page whose characters are all below 128 the [html] field is at most
    200000 bytes long. *)
Lemma ascii_html_within_bytes (b : Behaviour)
    (url html_content title intent : string) :
  PyStr.is_ascii html_content = true ->
  (PyStr.utf8_length
     (payload_html (build_payload b url html_content title intent))
   <= 200000)%Z.
Proof.
  intros H. unfold build_payload. cbn [payload_html].
  rewrite utf8_length_ascii by now apply take_ascii.
  rewrite length_take. lia.
Qed.

End Crawler.

(** * Runs *)

Import Scenario.

Example healthy_run_succeeds :
  fst (_crawl_single_target topic netloc online healthy live_target "hackathons")
  = Ret Success
  /\ count_events is_publish
       (snd (_crawl_single_target topic netloc online healthy live_target "hackathons")) = 1
  /\ count_events is_fallback
       (snd (_crawl_single_target topic netloc online healthy live_target "hackathons")) = 0.
Proof. vm_compute. repeat split. Qed.

Example offline_run_falls_back :
  snd (_process_success topic netloc offline healthy live_target "<html/>" "t" "i")
  = [Log WARNING "Kafka offline - Engaging Heartbeat Fallback" (Some live_target);
     ProcessRawEvent live_target
       (build_payload netloc healthy live_target "<html/>" "t" "i")].
Proof. reflexivity. Qed.

Example publish_failure_falls_back :
  snd (_process_success topic netloc online publish_fails live_target "<html/>" "t" "i")
  = [Publish topic live_target
       (build_payload netloc publish_fails live_target "<html/>" "t" "i");
     Log ERROR "Transmission jammed (Kafka fail) - Engaging Heartbeat Fallback"
       (Some live_target);
     ProcessRawEvent live_target
       (build_payload netloc publish_fails live_target "<html/>" "t" "i")].
Proof. reflexivity. Qed.

Example huge_page_is_cut :
  Z.of_nat (String.length (page_html 200001)) = 200001%Z
  /\ Z.of_nat
       (String.length
          (payload_html
             (build_payload netloc huge_page live_target (page_html 200001) "t" "i")))
     = 200000%Z.
Proof. split; vm_compute; reflexivity. Qed.

(** C1 on a run. Six targets, two batches; [create_stealth_context] raises
    for the first target. The exception is not caught in the task (the task
    does not end [Failed]), [asyncio.gather] hands it to [crawl_and_stream],
    and [crawl_and_stream] ends with it: the four siblings of the first batch
    ran, the second batch never started, and its target, which is crawled
    when every context can be created, is never visited. *)
Theorem context_failure_not_isolated :
  let run := crawl_and_stream topic netloc online first_context_fails
               six_targets "hackathons" in
  let sixth := nth 5 six_targets "" in
  _crawl_single_target topic netloc online (first_context_fails 0)
    (nth 0 six_targets "") "hackathons"
  = (Raise ContextError, [])
  /\ fst run = Raise ContextError
  /\ count_events is_context_created (snd run) = 4
  /\ count_events is_context_closed (snd run) = 4
  /\ count_events is_publish (snd run) = 4
  /\ count_events (visits sixth) (snd run) = 0
  /\ count_events (visits sixth)
       (snd (crawl_and_stream topic netloc online (fun _ => healthy)
               six_targets "hackathons")) = 1.
Proof. vm_compute. repeat split. Qed.

(** C2 on a run. The backbone is initialized and the publish call raises:
    [_process_success] makes that one call and ends with its exception, so
    that for this payload neither path is taken: no transmission is logged
    and the fallback entry point is not called. With a publish call that
    returns [False] instead, the same payload goes to the fallback entry
    point. *)
Theorem publish_exception_takes_no_path :
  let payload :=
    build_payload netloc publish_raises live_target (page_html 6000)
      "Open hackathons" "hackathons" in
  let raised :=
    _process_success topic netloc online publish_raises live_target
      (page_html 6000) "Open hackathons" "hackathons" in
  let refused :=
    _process_success topic netloc online publish_fails live_target
      (page_html 6000) "Open hackathons" "hackathons" in
  raised = (Raise PublishError, [Publish topic live_target payload])
  /\ stream_path_taken (snd raised) = false
  /\ fallback_path_taken (snd raised) = false
  /\ fst refused = Ret tt
  /\ stream_path_taken (snd refused) = false
  /\ fallback_path_taken (snd refused) = true
  /\ payloads_of (snd refused) = [payload; payload].
Proof.
  cbv zeta. split; [reflexivity|]. split; [reflexivity|].
  split; [reflexivity|]. split; [reflexivity|]. split; [reflexivity|].
  split; reflexivity.
Qed.

(** C3 on a run. A crawl task whose page passes both guards, with the
    backbone initialized and a publish call that raises: the task makes the
    one publish call, never calls the fallback entry point, logs a crash and
    ends [Failed]; the payload is lost. The same task with a publish call
    that returns [False] hands the payload to the fallback entry point and
    ends [Success]. *)
Theorem publish_exception_loses_payload :
  let raised :=
    _crawl_single_target' topic netloc online publish_raises tidy live_target
      "hackathons" in
  let refused :=
    _crawl_single_target' topic netloc online publish_fails tidy live_target
      "hackathons" in
  fst raised = Ret (Failed PublishError)
  /\ count_events is_publish (snd raised) = 1
  /\ count_events is_fallback (snd raised) = 0
  /\ count_events (logs "Drone crash") (snd raised) = 1
  /\ fst refused = Ret Success
  /\ count_events is_publish (snd refused) = 1
  /\ count_events is_fallback (snd refused) = 1
  /\ map payload_url (payloads_of (snd refused)) = [live_target; live_target].
Proof. vm_compute. repeat split. Qed.

(** C6 on a run. A page of 200001 accented letters passes both guards; the
    task publishes one payload, whose [html] field holds 200000 characters,
    which are 400000 bytes: the cut counts characters, not bytes. On a page
    of 200001 letters [x] the field holds 200000 bytes. *)
Theorem html_cap_counts_characters :
  let sizes (b : Behaviour) :=
    map (fun v => (Z.of_nat (String.length (payload_html v)),
                   PyStr.utf8_length (payload_html v)))
        (payloads_of
           (snd (_crawl_single_target' topic netloc online b tidy live_target
                   "hackathons"))) in
  sizes accented_page = [(200000, 400000)]%Z
  /\ sizes huge_page = [(200000, 200000)]%Z.
Proof. split; vm_compute; reflexivity. Qed.

(** C9 on a run. [fetch_content] on a page that loads, with a [page.close()]
    that raises: the exception leaves the [finally] before [context.close()]
    is awaited, and the context that was created is not closed. A crawl task
    whose [context.add_init_script] raises: [create_stealth_context] raises
    with its new context open, before the [try] of the task. The crawl task
    itself never closes its page, so a [page.close()] that raises does not
    keep it from closing its context. *)
Theorem context_outlives_task :
  let fetch := fetch_content' healthy page_close_fails live_target in
  let task :=
    _crawl_single_target' topic netloc online healthy init_script_fails
      live_target "hackathons" in
  let sibling :=
    _crawl_single_target' topic netloc online healthy page_close_fails
      live_target "hackathons" in
  fst fetch = Raise PageCloseError
  /\ count_events is_context_created (snd fetch) = 1
  /\ count_events is_context_closed (snd fetch) = 0
  /\ task = (Raise InitScriptError, [ContextCreated])
  /\ fst sibling = Ret Success
  /\ count_events is_context_created (snd sibling) = 1
  /\ count_events is_context_closed (snd sibling) = 1.
Proof. vm_compute. repeat split. Qed.




Example thin_page_is_skipped :
  (Z.of_nat (String.length (page_html 3000)) < 5000)%Z
  /\ fst (_crawl_single_target topic netloc online thin_page live_target
            "hackathons")
     = Ret (Skipped too_thin)
  /\ count_events is_delivery
       (snd (_crawl_single_target topic netloc online thin_page live_target
               "hackathons")) = 0.
Proof. vm_compute. repeat split. Qed.


Example unreachable_target_fails :
  _crawl_single_target topic netloc online unreachable live_target "hackathons"
  = (Ret (Failed (GotoError "commit" 60000)),
     [ContextCreated; PageOpened; RouteRegistered "**/*" BatchHandler;
      HeadersSet; Log INFO "Drone approaching target" (Some live_target);
      Goto live_target "domcontentloaded" 90000;
      Log DEBUG "Drone primary approach failed (networkidle), retrying with lenient wait"
        (Some live_target);
      Goto live_target "domcontentloaded" 60000;
      Goto live_target "commit" 60000;
      Log ERROR "Drone crash" (Some live_target);
      ContextClosed]).
Proof. reflexivity. Qed.

Example fetch_content_closes_after_failure :
  fetch_content unreachable live_target
  = (Ret None,
     [ContextCreated; PageOpened; RouteRegistered "**/*" FetchHandler;
      Log INFO "Direct fetch approaching" (Some live_target);
      Goto live_target "domcontentloaded" 60000;
      Log WARNING "Direct fetch timeout, retrying with fast load" (Some live_target);
      Goto live_target "load" 30000;
      Log ERROR "Direct fetch failed" (Some live_target);
      PageClosed; ContextClosed]).
Proof. reflexivity. Qed.

(** * The browser engine *)

Module EngineFacts.
Import Engine.

Lemma create_keeps_started (a : Answers) (st : State) :
  playwright st = true ->
  playwright (after (create_stealth_context a st)) = true
  /\ browser (after (create_stealth_context a st)) = browser st
  /\ filter is_launch (events (create_stealth_context a st)) = []
  /\ filter is_start (events (create_stealth_context a st)) = [].
Proof.
  intros H. unfold create_stealth_context, _init_browser. rewrite H. cbn.
  destruct (browser st) eqn:Hb; [|cbn; auto].
  destruct (new_context_ok a), (init_script_ok a); cbn; auto.
Qed.

Lemma create_many_started (answers : list Answers) (st : State) :
  playwright st = true ->
  let '(_, evs, st') := create_many answers st in
  filter is_launch evs = [] /\ filter is_start evs = []
  /\ playwright st' = true /\ browser st' = browser st.
Proof.
  revert st. induction answers as [|a rest IH]; intros st H; cbn.
  - auto.
  - destruct (create_keeps_started a st H) as (H1 & H2 & H3 & H4).
    specialize (IH _ H1).
    destruct (create_many rest (after (create_stealth_context a st)))
      as [[results evs] st'].
    destruct IH as (I1 & I2 & I3 & I4).
    rewrite !filter_app, H3, H4, I1, I2, I3, I4, H2. auto.
Qed.

(** X10. In calls of [create_stealth_context] made one after the other on a
    new service, Chromium is launched at most once, whatever fails in
    between: a start of Playwright that raises is tried again by the next
    call, but once Playwright has started no call starts or launches
    anything again. On a service whose engine runs, no call starts or
    launches anything and the two fields stay set. *)
Theorem launches_at_most_once (answers : list Answers) :
  (let '(_, evs, _) := create_many answers fresh in
   length (filter is_launch evs) <= 1)
  /\ (let '(_, evs, st') := create_many answers started in
      filter is_launch evs = [] /\ filter is_start evs = [] /\ st' = started).
Proof.
  split.
  - induction answers as [|a rest IH]; cbn; [lia|].
    unfold create_stealth_context, _init_browser. cbn.
    destruct (start_ok a); cbn.
    + assert (forall st, playwright st = true ->
                let '(_, evs, _) := create_many rest st in
                length (filter is_launch evs) = 0) as Hrest.
      { intros st H. pose proof (create_many_started rest st H) as Hs.
        destruct (create_many rest st) as [[results evs] st'].
        now destruct Hs as [-> _]. }
      destruct (launch_ok a); cbn.
      * destruct (new_context_ok a), (init_script_ok a); cbn;
          match goal with
          | |- context [create_many rest ?st] =>
              specialize (Hrest st eq_refl);
              destruct (create_many rest st) as [[results evs] st']
          end; cbn; lia.
      * specialize (Hrest (mkState true false) eq_refl).
        destruct (create_many rest (mkState true false))
          as [[results evs] st']. cbn. lia.
    + fold fresh. destruct (create_many rest fresh) as [[results evs] st'].
      cbn. exact IH.
  - pose proof (create_many_started answers started eq_refl) as H.
    destruct (create_many answers started) as [[results evs] st'].
    destruct H as (H1 & H2 & H3 & H4). repeat split; auto.
    destruct st' as [p br]. cbn in *. now subst.
Qed.

Lemma create_many_without_browser (answers : list Answers) :
  create_many answers (mkState true false)
  = (map (fun _ => inr NoBrowser) answers, [], mkState true false).
Proof.
  induction answers as [|a rest IH]; cbn; [reflexivity|]. now rewrite IH.
Qed.

(** X11. A launch of Chromium that raises is never tried again: the call
    ends with that error and leaves [self.playwright] set and [self.browser]
    unset, and from then on every call of [create_stealth_context] raises at
    once (no browser to ask for a context) without starting, launching or
    creating anything. *)
Theorem stuck_after_failed_launch (a : Answers) (answers : list Answers) :
  start_ok a = true ->
  launch_ok a = false ->
  let r := create_stealth_context a fresh in
  result r = inr LaunchError
  /\ after r = mkState true false
  /\ create_many answers (after r)
     = (map (fun _ => inr NoBrowser) answers, [], after r).
Proof.
  intros Hs Hl. cbv zeta.
  unfold create_stealth_context, _init_browser. cbn. rewrite Hs, Hl. cbn.
  repeat split. apply create_many_without_browser.
Qed.

(** X12. [close] resets neither field, so a closed service is never
    started again: after [close], [_init_browser] does nothing and
    [create_stealth_context] asks the closed browser for its context. When
    [browser.close()] raises, [playwright.stop()] is not called. *)
Theorem close_resets_nothing (a a' : Answers) (st : State) :
  after (close a st) = st
  /\ _init_browser a' (after (close a started)) = mkRun (inl tt) [] started
  /\ filter is_launch
       (events (create_stealth_context a' (after (close a started)))) = []
  /\ (browser st = true -> browser_close_ok a = false ->
      result (close a st) = inr BrowserCloseError
      /\ events (close a st) = [BrowserClose]).
Proof.
  assert (after (close a st) = st) as H.
  { unfold close.
    destruct (browser st), (browser_close_ok a), (playwright st); reflexivity. }
  split; [exact H|].
  assert (after (close a started) = started) as Hs.
  { unfold close, started. cbn. now destruct (browser_close_ok a). }
  rewrite Hs. split; [reflexivity|]. split.
  - unfold create_stealth_context. cbn.
    destruct (new_context_ok a'), (init_script_ok a'); reflexivity.
  - intros Hb Hc. unfold close. now rewrite Hb, Hc.
Qed.

Lemma choice_in {A} (seq : list A) (draw : nat) (default : A) :
  seq <> [] -> In (choice seq draw default) seq.
Proof.
  intros H. unfold choice. apply nth_In. apply Nat.mod_upper_bound.
  destruct seq; [now elim H | discriminate].
Qed.

(** X13. On a service whose engine runs, [create_stealth_context] returns a
    context exactly when both [new_context] and [add_init_script] return.
    The context is opened with a user agent, a viewport and a time zone
    taken from the three fixed lists and with the locale en-US, and the init
    script is added right after it is opened. When the init script cannot
    be added the caller gets the exception and no context: the context just
    opened is not closed by [create_stealth_context]. *)
Theorem context_profile (a : Answers) :
  let r := create_stealth_context a started in
  let p := draw_profile a in
  after r = started
  /\ (result r = inl tt <-> new_context_ok a = true /\ init_script_ok a = true)
  /\ (new_context_ok a = true -> events r = [NewContext p; AddInitScript])
  /\ (new_context_ok a = false ->
      events r = [] /\ result r = inr NewContextError)
  /\ (new_context_ok a = true -> init_script_ok a = false ->
      result r = inr InitScriptError)
  /\ In (user_agent p) user_agents
  /\ In (viewport p) viewports
  /\ In (timezone_id p) timezones
  /\ locale p = "en-US".
Proof.
  cbv zeta.
  assert (In (user_agent (draw_profile a)) user_agents
          /\ In (viewport (draw_profile a)) viewports
          /\ In (timezone_id (draw_profile a)) timezones
          /\ locale (draw_profile a) = "en-US") as Hp.
  { unfold draw_profile. cbn [user_agent viewport timezone_id locale].
    split; [apply choice_in; discriminate|].
    split; [apply choice_in; discriminate|].
    split; [apply choice_in; discriminate|reflexivity]. }
  unfold create_stealth_context. cbn -[In draw_profile].
  split; [now destruct (new_context_ok a), (init_script_ok a)|].
  split; [destruct (new_context_ok a), (init_script_ok a); cbn;
          intuition discriminate|].
  split; [intros ->; now destruct (init_script_ok a)|].
  split; [intros ->; now split|].
  split; [intros -> ->; reflexivity|].
  exact Hp.
Qed.

End EngineFacts.

Lemma stuck_after_failed_launch_witness :
  let a := Engine.mkAnswers true false true true true true 0 0 0 in
  (Engine.start_ok a = true /\ Engine.launch_ok a = false)
  /\ Engine.create_many [a; a] (Engine.mkState true false)
     = ([inr Engine.NoBrowser; inr Engine.NoBrowser], [],
        Engine.mkState true false).
Proof.
  cbv zeta. split; [split; reflexivity|].
  exact (proj2 (proj2
           (EngineFacts.stuck_after_failed_launch
              (Engine.mkAnswers true false true true true true 0 0 0)
              [Engine.mkAnswers true false true true true true 0 0 0;
               Engine.mkAnswers true false true true true true 0 0 0]
              eq_refl eq_refl))).
Defined.

(** * More runs *)



Example fallback_failure_fails_target :
  fst (_crawl_single_target topic netloc offline
         (mkBehaviour true true true true (fun _ _ => true) true
            (fun _ => true) true (Some (page_html 6000))
            (Some "Open hackathons") (1700000000 # 1)%Q (Some true) false)
         live_target "hackathons")
  = Ret (Failed RefineryError).
Proof. vm_compute. reflexivity. Qed.

Example uppercase_target_is_blacklisted :
  is_blacklisted "HTTPS://WWW.CHEGG.COM/Study" = true.
Proof. reflexivity. Qed.

Example eleven_targets_three_batches :
  map (@length string)
      (batches (six_targets ++ firstn 5 six_targets)) = [5; 5; 1].
Proof. reflexivity. Qed.

(** * taikai_scraper.py *)

Section TaikaiFacts.
Import Py Taikai.

Variable json_loads : string -> option Value.
Variable py_str : Value -> string.

(** ** The pattern *)

Lemma string_app_assoc (s t u : string) :
  ((s ++ t) ++ u = s ++ (t ++ u))%string.
Proof. induction s as [|c s IH]; simpl; [reflexivity | now rewrite IH]. Qed.

Lemma drop_app_length (s t : string) :
  drop (String.length s) (s ++ t) = t.
Proof. induction s as [|c s IH]; simpl; auto. Qed.

Lemma lazy_group_eq (s : string) :
  lazy_group s =
  if String.prefix SCRIPT_CLOSE s then Some EmptyString
  else
    match s with
    | EmptyString => None
    | String c s' =>
        if Ascii.eqb c newline then None
        else option_map (String c) (lazy_group s')
    end.
Proof. destruct s; reflexivity. Qed.

Lemma re_search_eq (html : string) :
  re_search html =
  match
    (if String.prefix SCRIPT_OPEN html
     then lazy_group (drop (String.length SCRIPT_OPEN) html)
     else None)
  with
  | Some group => Some group
  | None =>
      match html with
      | EmptyString => None
      | String _ html' => re_search html'
      end
  end.
Proof. destruct html; reflexivity. Qed.

Lemma lazy_group_sound (s group : string) :
  lazy_group s = Some group ->
  free_of newline group = true
  /\ exists post, s = (group ++ SCRIPT_CLOSE ++ post)%string.
Proof.
  revert group. induction s as [|c s IH]; intros group; rewrite lazy_group_eq.
  - destruct (String.prefix SCRIPT_CLOSE "") eqn:E; [|discriminate].
    discriminate E.
  - destruct (String.prefix SCRIPT_CLOSE (String c s)) eqn:E.
    + intros [= <-]. split; [reflexivity|].
      apply prefix_spec in E. destruct E as [post E]. now exists post.
    + destruct (Ascii.eqb c newline) eqn:Hc; [discriminate|].
      destruct (lazy_group s) as [g|]; [|discriminate].
      intros [= <-]. destruct (IH g eq_refl) as (Hfree & post & ->).
      split.
      * cbn [free_of]. rewrite Ascii.eqb_sym, Hc. exact Hfree.
      * now exists post.
Qed.

Lemma re_search_sound (html blob : string) :
  re_search html = Some blob ->
  free_of newline blob = true
  /\ exists pre post,
       html = (pre ++ SCRIPT_OPEN ++ blob ++ SCRIPT_CLOSE ++ post)%string.
Proof.
  induction html as [|c html IH]; rewrite re_search_eq.
  - destruct (String.prefix SCRIPT_OPEN "") eqn:E; [discriminate E|].
    discriminate.
  - destruct (String.prefix SCRIPT_OPEN (String c html)) eqn:E.
    + apply prefix_spec in E. destruct E as [rest E]. rewrite E at 1.
      rewrite drop_app_length.
      destruct (lazy_group rest) as [g|] eqn:Hg.
      * intros [= <-]. destruct (lazy_group_sound rest g Hg) as (Hf & post & ->).
        split; [exact Hf|]. exists EmptyString, post. exact E.
      * intros H. destruct (IH H) as (Hf & pre & post & ->).
        split; [exact Hf|]. now exists (String c pre), post.
    + intros H. destruct (IH H) as (Hf & pre & post & ->).
      split; [exact Hf|]. now exists (String c pre), post.
Qed.

Lemma prefix_other_start (p s : string) (c c' : ascii) :
  Ascii.eqb c c' = false -> String.prefix (String c p) (String c' s) = false.
Proof.
  intros H. cbn. destruct (Ascii.ascii_dec c c') as [->|_]; [|reflexivity].
  now rewrite Ascii.eqb_refl in H.
Qed.

Lemma prefix_app (s t : string) : String.prefix s (s ++ t) = true.
Proof. apply prefix_spec. now exists t. Qed.

Lemma lazy_group_complete (blob post : string) :
  free_of newline blob = true ->
  free_of "<" blob = true ->
  lazy_group (blob ++ SCRIPT_CLOSE ++ post) = Some blob.
Proof.
  induction blob as [|c blob IH]; intros Hn Hl; rewrite lazy_group_eq.
  - cbn [append]. now rewrite prefix_app.
  - cbn [free_of] in Hn, Hl. apply andb_true_iff in Hn, Hl.
    destruct Hn as [Hn1 Hn2], Hl as [Hl1 Hl2].
    apply negb_true_iff in Hn1, Hl1.
    cbn [append].
    unfold SCRIPT_CLOSE at 1. rewrite (prefix_other_start _ _ _ _ Hl1).
    rewrite Ascii.eqb_sym, Hn1, IH by assumption. reflexivity.
Qed.

(** X14. The pattern that finds the data blob of the page. A match gives
    the text between the opening tag [<script id="__NEXT_DATA__"
    type="application/json">] and a closing tag [</script>] that follows it,
    the text holding no newline; so a page with a match contains
    "__NEXT_DATA__", and the second test of [fetch_taikai_events] can only
    fail where the search fails too. Conversely, a blob without newline and
    without "<", standing between the two tags after a text without "<", is
    the one found. *)
Theorem next_data_blob (html blob pre post : string) :
  (re_search html = Some blob ->
     free_of newline blob = true
     /\ PyStr.str_in "__NEXT_DATA__" html = true
     /\ exists before after,
          html = (before ++ SCRIPT_OPEN ++ blob ++ SCRIPT_CLOSE ++ after)%string)
  /\ (free_of "<" pre = true -> free_of newline blob = true ->
      free_of "<" blob = true ->
      re_search (pre ++ SCRIPT_OPEN ++ blob ++ SCRIPT_CLOSE ++ post) = Some blob).
Proof.
  split.
  - intros H. destruct (re_search_sound html blob H) as (Hf & before & after & E).
    split; [exact Hf|]. split; [|now exists before, after].
    apply str_in_spec.
    exists (before ++ "<script id=" ++ quote)%string,
           (quote ++ " type=" ++ quote ++ "application/json" ++ quote ++ ">"
            ++ blob ++ SCRIPT_CLOSE ++ after)%string.
    rewrite E. unfold SCRIPT_OPEN.
    rewrite !string_app_assoc. reflexivity.
  - intros Hpre Hn Hl. induction pre as [|c pre IH]; rewrite re_search_eq.
    + cbn [append]. rewrite prefix_app, drop_app_length.
      now rewrite lazy_group_complete.
    + cbn [free_of] in Hpre. apply andb_true_iff in Hpre.
      destruct Hpre as [Hc Hpre]. apply negb_true_iff in Hc.
      cbn [append]. unfold SCRIPT_OPEN at 1.
      cbn [append]. rewrite (prefix_other_start _ _ _ _ Hc).
      now apply IH.
Qed.

(** ** The two parses *)

Ltac split_match :=
  match goal with
  | |- context [match ?x with _ => _ end] =>
      lazymatch x with
      | context [match _ with _ => _ end] => fail
      | _ => destruct x eqn:?
      end
  end.

Ltac run_scraper :=
  unfold fetch_taikai_events_from, first_path, second_path, loads,
    Py.bind, Py.try_except, lift, Py.log, ret, raise;
  repeat (cbn [fst snd app negb andb]; split_match).

(** X15. [fetch_taikai_events] never raises, however [fetch_content] ended
    and whatever the page holds, and what it returns has a length: it is a
    list, a dictionary or a string. *)
Theorem fetch_taikai_events_returns (fetched : Res (option string)) :
  exists v n,
    fst (fetch_taikai_events_from json_loads py_str fetched) = Ok v
    /\ len v = Ok n.
Proof.
  run_scraper; cbn; do 2 eexists; (split; [reflexivity|]);
    first [eassumption | reflexivity].
Qed.




Lemma len_error (v : Value) (e : Err) : len v = Error e -> e = TypeError.
Proof. destruct v; cbn; congruence. Qed.

Lemma contains_error (s : string) (v : Value) (e : Err) :
  contains s v = Error e -> e = TypeError.
Proof. destruct v; cbn; congruence. Qed.

Ltac absurd_log H :=
  cbn in H; repeat (destruct H as [H|H]; [discriminate H|]); contradiction H.

(** X17. The parse of the Apollo state takes effect only after the first
    parse raised. If the scraper logs "TAIKAI Apollo scrape success", it has
    logged "TAIKAI scrape failed" before: the page was fetched, its blob was
    found and decoded and its page properties read, and then the search for
    the challenges raised, or found a value without a length. A page whose
    first parse ends normally is answered from the first parse alone, also
    when that answer is empty. *)
Theorem apollo_only_after_failure (fetched : Res (option string)) :
  In "TAIKAI Apollo scrape success"
     (snd (fetch_taikai_events_from json_loads py_str fetched)) ->
  In "TAIKAI scrape failed"
     (snd (fetch_taikai_events_from json_loads py_str fetched))
  /\ exists text blob data page_props,
       fetched = Ret (Some text)
       /\ re_search text = Some blob
       /\ json_loads blob = Some data
       /\ page_props_of data = Ok page_props
       /\ forall challenges,
            find_challenges py_str page_props = Ok challenges ->
            len challenges = Error TypeError.
Proof.
  run_scraper; cbn; intros H; try (exfalso; absurd_log H).
  all: (split; [auto 10|]).
  all: do 4 eexists; repeat (split; [reflexivity || eassumption|]).
  all: intros c Hc.
  all: try congruence.
  all: match goal with
       | Hf : find_challenges _ _ = Ok ?c0, Hl : len ?c0 = Error _ |- _ =>
           assert (c = c0) as -> by congruence;
           rewrite Hl; f_equal; exact (len_error _ _ Hl)
       end.
Qed.

(** ** The Apollo state *)

Lemma collect_challenges_full (entries : list (string * Value)) (l : list Value) :
  collect_challenges entries = Ok l -> Forall full_challenge l.
Proof.
  revert l. induction entries as [|[key value] rest IH]; intros l.
  - intros [= <-]. constructor.
  - cbn [collect_challenges]. unfold rbind at 1.
    destruct (String.prefix "Challenge:" key).
    + unfold rbind at 1.
      destruct (contains "name" value) as [[|]|] eqn:Hn; [| |discriminate].
      * unfold rbind at 1.
        destruct (contains "slug" value) as [[|]|] eqn:Hs; [| |discriminate].
        -- unfold rbind at 1.
           destruct (contains "prize" value) as [[|]|] eqn:Hp; [| |discriminate].
           ++ destruct (collect_challenges rest) as [tail|]; [|discriminate].
              intros [= <-]. constructor; [|now apply IH].
              repeat split; auto.
           ++ destruct (contains "shortDescription" value) as [[|]|] eqn:Hd;
                [| |discriminate];
                (destruct (collect_challenges rest) as [tail|]; [|discriminate]);
                intros [= <-]; [|now apply IH].
              constructor; [|now apply IH]. repeat split; auto.
        -- destruct (collect_challenges rest) as [tail|]; [|discriminate].
           intros [= <-]. now apply IH.
      * destruct (collect_challenges rest) as [tail|]; [|discriminate].
        intros [= <-]. now apply IH.
    + destruct (collect_challenges rest) as [tail|]; [|discriminate].
      intros [= <-]. now apply IH.
Qed.

(** X18. What the parse of the Apollo state returns. If the scraper logs
    "TAIKAI Apollo scrape success", it returns a list that is not empty, and
    every element of it contains "name", "slug" and one of "prize" and
    "shortDescription". *)
Theorem apollo_result_is_full (fetched : Res (option string)) :
  In "TAIKAI Apollo scrape success"
     (snd (fetch_taikai_events_from json_loads py_str fetched)) ->
  exists l,
    fst (fetch_taikai_events_from json_loads py_str fetched) = Ok (VList l)
    /\ l <> []
    /\ Forall full_challenge l.
Proof.
  run_scraper; cbn; intros H; try (exfalso; absurd_log H).
  all: eexists; split; [reflexivity|]; split; [discriminate|].
  all: eapply collect_challenges_full; eassumption.
Qed.

Lemma searchable_forallb (entries : list (string * Value)) :
  challenge_entries_searchable entries <-> forallb searchableb entries = true.
Proof.
  unfold challenge_entries_searchable. rewrite forallb_forall, Forall_forall.
  split; intros H entry Hin; specialize (H entry Hin); unfold searchableb in *.
  - destruct (String.prefix "Challenge:" (fst entry)); [|reflexivity].
    cbn. now apply H.
  - intros Hp. rewrite Hp in H. exact H.
Qed.

Lemma collect_challenges_cases (entries : list (string * Value)) :
  collect_challenges entries
  = if forallb searchableb entries
    then Ok (map snd (filter is_full_challenge entries))
    else Error TypeError.
Proof.
  induction entries as [|[key value] rest IH]; [reflexivity|].
  cbn [collect_challenges forallb filter]. rewrite IH.
  set (kept := filter is_full_challenge rest).
  set (ok := forallb searchableb rest).
  unfold searchableb, is_full_challenge. cbn [fst snd].
  destruct (String.prefix "Challenge:" key); cbn [negb orb andb];
    [|destruct ok; reflexivity].
  destruct value as [|flag|q|s|l|d];
    cbn [accepts_in contains rbind andb orb]; try reflexivity.
  - destruct (PyStr.str_in "name" s), (PyStr.str_in "slug" s),
      (PyStr.str_in "prize" s), (PyStr.str_in "shortDescription" s), ok;
      reflexivity.
  - destruct (existsb (is_str "name") l), (existsb (is_str "slug") l),
      (existsb (is_str "prize") l), (existsb (is_str "shortDescription") l), ok;
      reflexivity.
  - destruct (lookup "name" d), (lookup "slug" d), (lookup "prize" d),
      (lookup "shortDescription" d), ok; reflexivity.
Qed.

(** X19. The loop over the Apollo state. When every entry whose key starts
    with "Challenge:" is a dictionary, a list or a string, the loop keeps, in
    order, exactly the values of the entries with such a key that contain
    "name", "slug" and one of "prize" and "shortDescription". One entry with
    such a key and a null, a number or a boolean as value makes the whole
    loop raise a [TypeError], so that nothing is kept of the other
    entries. *)
Theorem apollo_entries_kept (entries : list (string * Value)) :
  (challenge_entries_searchable entries ->
     collect_challenges entries
     = Ok (map snd (filter is_full_challenge entries)))
  /\ (forall key value,
        In (key, value) entries ->
        String.prefix "Challenge:" key = true ->
        accepts_in value = false ->
        collect_challenges entries = Error TypeError).
Proof.
  rewrite collect_challenges_cases. split.
  - intros H. apply searchable_forallb in H. now rewrite H.
  - intros key value Hin Hp Ha.
    destruct (forallb searchableb entries) eqn:E; [|reflexivity].
    rewrite forallb_forall in E. specialize (E _ Hin).
    unfold searchableb in E. cbn [fst snd] in E. rewrite Hp, Ha in E.
    discriminate E.
Qed.

(** X20. The Apollo state of a well-formed page is never read. When the
    blob of the page decodes to page properties that have none of the keys
    "challenges", "initialState" and "dehydratedState", the scraper logs
    "TAIKAI scrape success" and returns the empty list, whatever the Apollo
    state of the page holds. *)
Theorem apollo_state_unreachable
    (text blob : string) (data : Value) (page_props : list (string * Value)) :
  text <> "" ->
  re_search text = Some blob ->
  json_loads blob = Some data ->
  page_props_of data = Ok (VDict page_props) ->
  lookup "challenges" page_props = None ->
  lookup "initialState" page_props = None ->
  lookup "dehydratedState" page_props = None ->
  fetch_taikai_events_from json_loads py_str (Ret (Some text))
  = (Ok (VList []),
     ["Fetching TAIKAI via Sentinel Drone..."; "TAIKAI scrape success"]).
Proof.
  intros Ht Hm Hj Hp H1 H2 H3.
  apply String.eqb_neq in Ht.
  unfold fetch_taikai_events_from, first_path, loads.
  rewrite Ht, Hm, Hj. cbn [negb]. unfold lift, Py.bind at 3.
  rewrite Hp.
  unfold find_challenges. cbn -[lookup]. rewrite H1. cbn -[lookup].
  rewrite H2. cbn -[lookup]. rewrite H3. reflexivity.
Qed.

(** ** The scrape *)

Variable Scholarship : Type.
Variable build : list (string * Value) -> Transformed Scholarship.

Lemma fst_bind {A B : Type} (m : L A) (k : A -> L B) :
  fst (Py.bind m k)
  = match fst m with
    | Ok a => fst (k a)
    | Error e => Error e
    end.
Proof.
  destruct m as [[a|e] l]; cbn; [|reflexivity]. now destruct (k a).
Qed.

Lemma fetch_result_sized (fetched : Res (option string)) :
  exists events items,
    fst (fetch_taikai_events_from json_loads py_str fetched) = Ok events
    /\ iter events = Ok items.
Proof.
  assert (exists v n,
             fst (fetch_taikai_events_from json_loads py_str fetched) = Ok v
             /\ len v = Ok n) as (v & n & E & Hn).
  { run_scraper; cbn; do 2 eexists; (split; [reflexivity|]);
      first [eassumption | reflexivity]. }
  exists v. destruct v; try discriminate Hn; cbn; eauto.
Qed.

Lemma transform_dict (d : list (string * Value)) :
  transform_taikai_event Scholarship build (VDict d)
  = (match event_error Scholarship build (VDict d) with
     | Some e => Error e
     | None => Ok (hd_error (scholarship_of Scholarship build (VDict d)))
     end, []).
Proof.
  unfold transform_taikai_event, scholarship_of, event_error, title_of, get.
  destruct (lookup "name" d) as [name|]; cbn -[lookup].
  - destruct (truthy name) eqn:Hn; cbn -[lookup]; rewrite ?Hn; cbn -[lookup].
    + destruct (lookup "slug" d); cbn -[lookup];
        destruct (build d); cbn -[lookup]; try reflexivity;
        destruct (lookup "name" d); reflexivity.
    + destruct (lookup "title" d) as [title|]; cbn -[lookup].
      * destruct (lookup "slug" d); cbn -[lookup];
          destruct (truthy title); cbn -[lookup]; try reflexivity;
          destruct (build d); cbn -[lookup]; try reflexivity;
          destruct (lookup "name" d); reflexivity.
      * destruct (lookup "slug" d); reflexivity.
  - destruct (lookup "title" d) as [title|]; cbn -[lookup].
    + destruct (lookup "slug" d); cbn -[lookup];
        destruct (truthy title); cbn -[lookup]; try reflexivity;
        destruct (build d); cbn -[lookup]; try reflexivity;
        destruct (lookup "name" d); reflexivity.
    + destruct (lookup "slug" d); reflexivity.
Qed.

Lemma transform_other (event : Value) :
  is_dict event = false ->
  transform_taikai_event Scholarship build event = (Error AttributeError, []).
Proof. destruct event; intros H; try discriminate H; reflexivity. Qed.

Lemma transform_all_cases (items : list Value) :
  transform_all Scholarship build items
  = (match first_error Scholarship build items with
     | Some e => Error e
     | None => Ok (flat_map (scholarship_of Scholarship build) items)
     end, []).
Proof.
  induction items as [|event rest IH]; [reflexivity|].
  cbn [transform_all first_error flat_map]. rewrite IH.
  destruct (is_dict event) eqn:Hd.
  - destruct event; try discriminate Hd. rewrite transform_dict.
    destruct (event_error Scholarship build (VDict d)); [reflexivity|].
    cbn [Py.bind].
    destruct (first_error Scholarship build rest); [reflexivity|].
    cbn. destruct (truthy (title_of d)); [|reflexivity].
    now destruct (build d).
  - rewrite transform_other by exact Hd.
    destruct event; try discriminate Hd; reflexivity.
Qed.

Lemma fetch_never_logs_transform (fetched : Res (option string)) :
  ~ In "TAIKAI transform failed"
       (snd (fetch_taikai_events_from json_loads py_str fetched)).
Proof.
  run_scraper; cbn; intros H; absurd_log H.
Qed.

Lemma snd_bind {A B : Type} (m : L A) (k : A -> L B) :
  snd (Py.bind m k)
  = match fst m with
    | Ok a => snd m ++ snd (k a)
    | Error _ => snd m
    end.
Proof.
  destruct m as [[a|e] l]; cbn; [|reflexivity]. now destruct (k a).
Qed.

(** X21. [scrape_taikai_events] returns exactly when every event it was
    given is a dictionary whose transformation does not raise. It then
    returns, in the order of the events, the scholarship of each event whose
    transformation built one; an event without a name and a title and an
    expired one add nothing. Otherwise the whole scrape raises with the
    exception of the first such event: an [AttributeError] for an event that
    is no dictionary, from [event.get], and a [TypeError] for a dictionary
    whose transformation raised, from the logging call of the handler, which
    gives its [event] argument twice. So one failing event loses the whole
    list, and "TAIKAI transform failed" is never logged. An event that is no
    dictionary comes in particular from a page that gives the challenges as a
    dictionary that is not empty, whose keys are then taken as the events. *)
Theorem scrape_taikai_events_cases (fetched : Res (option string)) :
  exists events items,
    fst (fetch_taikai_events_from json_loads py_str fetched) = Ok events
    /\ iter events = Ok items
    /\ fst (scrape_taikai_events_from json_loads py_str Scholarship build
              fetched)
       = match first_error Scholarship build items with
         | Some e => Error e
         | None => Ok (flat_map (scholarship_of Scholarship build) items)
         end
    /\ (forall d, events = VDict d -> d <> [] ->
        fst (scrape_taikai_events_from json_loads py_str Scholarship build
               fetched)
        = Error AttributeError)
    /\ ~ In "TAIKAI transform failed"
           (snd (scrape_taikai_events_from json_loads py_str Scholarship
                   build fetched)).
Proof.
  destruct (fetch_result_sized fetched) as (events & items & E & Hi).
  exists events, items. split; [exact E|]. split; [exact Hi|].
  assert (fst (scrape_taikai_events_from json_loads py_str Scholarship build
                 fetched)
          = match first_error Scholarship build items with
            | Some e => Error e
            | None => Ok (flat_map (scholarship_of Scholarship build) items)
            end) as R.
  { unfold scrape_taikai_events_from.
    rewrite fst_bind. cbn [Py.log fst]. rewrite fst_bind, E.
    rewrite fst_bind. unfold lift at 1. cbn [fst]. rewrite Hi.
    rewrite fst_bind, transform_all_cases. cbn [fst].
    destruct (first_error Scholarship build items); reflexivity. }
  split; [exact R|]. split.
  - intros d -> Hd. rewrite R. cbn in Hi. injection Hi as <-.
    destruct d as [|[k v] d]; [now elim Hd|]. reflexivity.
  - pose proof (fetch_never_logs_transform fetched) as Hf.
    unfold scrape_taikai_events_from.
    rewrite snd_bind. cbn [Py.log fst snd]. rewrite snd_bind, E.
    rewrite snd_bind. unfold lift at 1 2. cbn [fst snd]. rewrite Hi.
    rewrite snd_bind, transform_all_cases. cbn [fst snd].
    intros H. cbn [app] in H. destruct H as [H|H]; [discriminate H|].
    apply in_app_or in H. destruct H as [H|H]; [now apply Hf|].
    destruct (first_error Scholarship build items); cbn in H;
      [contradiction H|].
    destruct H as [H|H]; [discriminate H | contradiction H].
Qed.

End TaikaiFacts.

(** ** Runs of the scraper *)

Import TaikaiPages.

Example apollo_page_run :
  Taikai.fetch_taikai_events_from loads_page str_unused
    (Ret (Some (page_around apollo_blob)))
  = (Py.Ok (Py.VList [hackathon]),
     ["Fetching TAIKAI via Sentinel Drone..."; "TAIKAI scrape failed";
      "TAIKAI Apollo scrape success"]).
Proof. vm_compute. reflexivity. Qed.

Example taikai_on_healthy_crawler :
  fetch_taikai_events loads_page str_unused
    (with_page (page_around apollo_blob) "TAIKAI" healthy)
  = (Py.Ok (Py.VList [hackathon]),
     ["Fetching TAIKAI via Sentinel Drone..."; "TAIKAI scrape failed";
      "TAIKAI Apollo scrape success"]).
Proof. vm_compute. reflexivity. Qed.

Example apollo_page_scrape :
  fst (Taikai.scrape_taikai_events_from loads_page str_unused string build_name
         (Ret (Some (page_around apollo_blob))))
  = Py.Ok ["Hack"].
Proof. vm_compute. reflexivity. Qed.

Example nested_challenges_crash_scrape :
  Taikai.fetch_taikai_events_from loads_page str_unused
    (Ret (Some (page_around nested_blob)))
  = (Py.Ok (Py.VDict [("items", Py.VList [hackathon])]),
     ["Fetching TAIKAI via Sentinel Drone..."; "TAIKAI scrape success"])
  /\ fst (Taikai.scrape_taikai_events_from loads_page str_unused string
            build_name (Ret (Some (page_around nested_blob))))
     = Py.Error Py.AttributeError.
Proof. split; vm_compute; reflexivity. Qed.

Example failing_transformation_crashes_scrape :
  fst (Taikai.transform_all string build_name
         [Py.VDict [("name", Py.VStr "Hack")];
          Py.VDict [("name", Py.VList [Py.VStr "Hack"])];
          Py.VStr "slug"])
  = Py.Error Py.TypeError
  /\ fst (Taikai.transform_all string build_name
            [Py.VDict [("name", Py.VStr "Hack")]; Py.VDict []])
     = Py.Ok ["Hack"].
Proof. split; reflexivity. Qed.

Lemma apollo_only_after_failure_witness :
  In "TAIKAI Apollo scrape success"
     (snd (Taikai.fetch_taikai_events_from loads_page str_unused
             (Ret (Some (page_around apollo_blob)))))
  /\ In "TAIKAI scrape failed"
        (snd (Taikai.fetch_taikai_events_from loads_page str_unused
                (Ret (Some (page_around apollo_blob))))).
Proof.
  assert (In "TAIKAI Apollo scrape success"
            (snd (Taikai.fetch_taikai_events_from loads_page str_unused
                    (Ret (Some (page_around apollo_blob)))))) as H
    by (vm_compute; auto 10).
  split; [exact H|].
  exact (proj1 (apollo_only_after_failure loads_page str_unused _ H)).
Defined.

Lemma apollo_result_is_full_witness :
  In "TAIKAI Apollo scrape success"
     (snd (Taikai.fetch_taikai_events_from loads_page str_unused
             (Ret (Some (page_around apollo_blob)))))
  /\ exists l,
       fst (Taikai.fetch_taikai_events_from loads_page str_unused
              (Ret (Some (page_around apollo_blob))))
       = Py.Ok (Py.VList l)
       /\ l <> []
       /\ Forall full_challenge l.
Proof.
  assert (In "TAIKAI Apollo scrape success"
            (snd (Taikai.fetch_taikai_events_from loads_page str_unused
                    (Ret (Some (page_around apollo_blob)))))) as H
    by (vm_compute; auto 10).
  split; [exact H|].
  exact (apollo_result_is_full loads_page str_unused _ H).
Defined.

Lemma apollo_state_unreachable_witness :
  (page_around bare_blob <> ""
   /\ Taikai.re_search (page_around bare_blob) = Some bare_blob
   /\ loads_page bare_blob = Some bare_data
   /\ Taikai.page_props_of bare_data
      = Py.Ok (Py.VDict [("apolloState", Py.VDict [("Challenge:1", hackathon)])]))
  /\ Taikai.fetch_taikai_events_from loads_page str_unused
       (Ret (Some (page_around bare_blob)))
     = (Py.Ok (Py.VList []),
        ["Fetching TAIKAI via Sentinel Drone..."; "TAIKAI scrape success"]).
Proof.
  assert (page_around bare_blob <> "") as H1 by discriminate.
  assert (Taikai.re_search (page_around bare_blob) = Some bare_blob) as H2
    by (vm_compute; reflexivity).
  assert (loads_page bare_blob = Some bare_data) as H3
    by (vm_compute; reflexivity).
  assert (Taikai.page_props_of bare_data
          = Py.Ok (Py.VDict [("apolloState",
                              Py.VDict [("Challenge:1", hackathon)])])) as H4
    by reflexivity.
  split; [repeat split; assumption|].
  exact (apollo_state_unreachable loads_page str_unused _ _ _ _ H1 H2 H3 H4
           eq_refl eq_refl eq_refl).
Defined.

(** * chat_service.py *)

Section ChatFacts.
Import Chat.

Lemma substring_trans (a b c : string) :
  Substring a b -> Substring b c -> Substring a c.
Proof.
  intros (p1 & q1 & ->) (p2 & q2 & ->).
  exists (p2 ++ p1)%string, (q1 ++ q2)%string.
  now rewrite !string_app_assoc.
Qed.

Lemma str_in_trans (a b c : string) :
  PyStr.str_in a b = true -> PyStr.str_in b c = true -> PyStr.str_in a c = true.
Proof. rewrite !str_in_spec. apply substring_trans. Qed.

(** X23. The criteria that [_extract_search_criteria] gives for any message.
    The types are never empty, hold no type twice and only the four known
    types; the urgency is one of "any", "immediate", "this_week" and
    "this_month"; the minimum amount and the keywords are never filled in.
    A message that names no type asks for all four types. *)
Theorem search_criteria_well_formed {Profile : Type}
    (message : string) (profile : Profile) :
  let criteria := _extract_search_criteria message profile in
  types criteria <> []
  /\ NoDup (types criteria)
  /\ incl (types criteria) ALL_TYPES
  /\ In (urgency criteria) ["any"; "immediate"; "this_week"; "this_month"]
  /\ min_amount criteria = None
  /\ keywords criteria = []
  /\ (names_no_type message -> types criteria = ALL_TYPES).
Proof.
  unfold _extract_search_criteria, names_no_type, ALL_TYPES, PyStr.any_in.
  cbv zeta. cbn [existsb types urgency min_amount keywords].
  set (ml := PyStr.lower message).
  destruct (PyStr.str_in "hackathon" ml), (PyStr.str_in "bounty" ml),
    (PyStr.str_in "bounties" ml), (PyStr.str_in "scholarship" ml),
    (PyStr.str_in "competition" ml);
    cbn [orb app];
    (split; [discriminate|]);
    (split; [repeat constructor; cbn; intuition discriminate|]);
    (split; [intros x Hx; cbn in Hx |- *; intuition|]);
    (split;
     [destruct (PyStr.str_in "urgent" ml || _); cbn; [auto|];
      destruct (PyStr.str_in "this week" ml || _); cbn; [auto|];
      destruct (PyStr.str_in "this month" ml || _); cbn; auto|]);
    (split; [reflexivity|]); (split; [reflexivity|]);
    intros H; first [discriminate H | reflexivity].
Qed.

Lemma hackathon_has_hack (s : string) :
  PyStr.str_in "hackathon" s = true -> PyStr.str_in "hack" s = true.
Proof. apply str_in_trans. reflexivity. Qed.

(** X24. [_infer_type] always gives one of the four known types, by
    precedence: "hackathon" exactly when "hack" occurs in the tags and the
    description taken together in lower case, whatever else they say, and
    "scholarship" exactly when none of "hack", "bounty", "bug",
    "competition" and "contest" occurs. *)
Theorem infer_type_precedence (opp : Opportunity) :
  In (_infer_type opp) ALL_TYPES
  /\ (_infer_type opp = "hackathon"
      <-> PyStr.str_in "hack" (combined_text opp) = true)
  /\ (_infer_type opp = "scholarship"
      <-> PyStr.any_in ["hack"; "bounty"; "bug"; "competition"; "contest"]
            (combined_text opp) = false).
Proof.
  unfold _infer_type, ALL_TYPES, PyStr.any_in. cbv zeta. cbn [existsb].
  pose proof (hackathon_has_hack (combined_text opp)) as Hh.
  destruct (PyStr.str_in "hackathon" (combined_text opp));
    [rewrite (Hh eq_refl); cbn; intuition discriminate|].
  clear Hh.
  destruct (PyStr.str_in "hack" (combined_text opp)),
    (PyStr.str_in "bounty" (combined_text opp)),
    (PyStr.str_in "bug" (combined_text opp)),
    (PyStr.str_in "competition" (combined_text opp)),
    (PyStr.str_in "contest" (combined_text opp));
    cbn; intuition discriminate.
Qed.

Lemma infer_type_known (opp : Opportunity) :
  PyStr.mem (_infer_type opp) ALL_TYPES = true.
Proof.
  unfold _infer_type. cbv zeta.
  destruct (_ || _); [reflexivity|].
  destruct (_ || _); [reflexivity|].
  destruct (_ || _); reflexivity.
Qed.

(** X25. The type test of the search never leaves out an opportunity when
    the message names no type: the criteria then hold all four types, and
    [_infer_type] gives one of them for every opportunity. *)
Theorem unnamed_type_filters_nothing {Profile : Type}
    (message : string) (profile : Profile) (opp : Opportunity) :
  names_no_type message ->
  type_filtered (_extract_search_criteria message profile) opp = false.
Proof.
  unfold names_no_type, PyStr.any_in. cbn [existsb]. intros H.
  rewrite orb_false_r in H. repeat (apply orb_false_iff in H; destruct H as [? H]).
  unfold type_filtered, _extract_search_criteria. cbv zeta.
  cbn [types].
  repeat match goal with E : PyStr.str_in _ _ = false |- _ =>
    rewrite E; clear E end.
  cbn [orb app].
  change (negb (PyStr.mem (_infer_type opp) ALL_TYPES) = false).
  now rewrite infer_type_known.
Qed.

End ChatFacts.

Lemma unnamed_type_filters_nothing_witness :
  Chat.names_no_type "help me pay my rent"
  /\ Chat.type_filtered
       (Chat._extract_search_criteria "help me pay my rent" tt)
       (Chat.mkOpportunity (Some ["STEM"; "Women"]) (Some "Debugging grant"))
     = false.
Proof.
  assert (Chat.names_no_type "help me pay my rent") as H
    by (vm_compute; reflexivity).
  split; [exact H|].
  exact (unnamed_type_filters_nothing "help me pay my rent" tt
           (Chat.mkOpportunity (Some ["STEM"; "Women"])
              (Some "Debugging grant")) H).
Defined.
